(** * PluginRemoveService: removal orchestration

    A shallow embedding of [meltano/core/plugin_remove_service.py].

    The module drives four removal managers per plugin and reports progress
    through two callbacks.  Its behaviour is effectful: the constructors and
    the [remove()] methods of the managers change the project (database,
    [meltano.yml], installation directory, lock files) and may raise, and
    the callbacks are arbitrary caller code, which can even change the
    sequence of plugins the service is iterating over.  The embedding
    therefore runs in a small monad that threads the state of the outside
    world, records every observable call in a chronological trace, and stops
    at the first exception while keeping the world and the trace reached so
    far.  The loop over the plugins reads the sequence where it lives, in the
    world, and is bounded by fuel, since a sequence that grows under the
    loop never ends. *)

From Stdlib Require Import List ZArith Lia Bool.
Import ListNotations.

Set Implicit Arguments.

(** ** Outcomes and the effect monad *)

(** A Python call either returns a value or raises. *)
Inductive Result (E A : Type) : Type :=
| Return (a : A)
| Raise (e : E).

Arguments Return {E A} a.
Arguments Raise {E A} e.

Module Eff.

Section Monad.

Variables W Ev E : Type.

(** A computation starts from a world and yields the world it leaves
    behind, the events it produced (oldest first) and its outcome. *)
Definition M (A : Type) : Type := W -> W * list Ev * Result E A.

Definition ret {A} (a : A) : M A := fun w => (w, [], Return a).

(** Sequencing: an exception in [m] skips [k]; the world and the events of
    [m] are kept. *)
Definition bind {A B} (m : M A) (k : A -> M B) : M B :=
  fun w =>
    match m w with
    | (w1, t1, Return a) =>
        match k a w1 with
        | (w2, t2, r) => (w2, t1 ++ t2, r)
        end
    | (w1, t1, Raise e) => (w1, t1, Raise e)
    end.

(** Record one observable event. *)
Definition emit (ev : Ev) : M unit := fun w => (w, [ev], Return tt).

(** Run foreign code, given as a world transformer that may raise. *)
Definition call {A} (f : W -> W * Result E A) : M A :=
  fun w => match f w with (w', r) => (w', [], r) end.

End Monad.

Arguments ret {W Ev E A} a.
Arguments bind {W Ev E A B} m k.
Arguments emit {W Ev E} ev.
Arguments call {W Ev E A} f.

End Eff.

Declare Scope eff_scope.
Delimit Scope eff_scope with eff.

Notation "x <- m ;; k" := (Eff.bind m (fun x => k))
  (at level 100, m at next level, right associativity) : eff_scope.
Notation "m ;;; k" := (Eff.bind m (fun _ => k))
  (at level 100, right associativity) : eff_scope.

Open Scope eff_scope.

(** ** The data of the module *)

(** The four concrete subclasses of [PluginLocationRemoveManager] imported
    from [meltano.core.plugin_location_remove]. *)
Inductive ManagerClass : Type :=
| DbRemoveManager
| MeltanoYmlRemoveManager
| InstallationRemoveManager
| LockedDefinitionRemoveManager.

Definition ManagerClass_eqb (a b : ManagerClass) : bool :=
  match a, b with
  | DbRemoveManager, DbRemoveManager
  | MeltanoYmlRemoveManager, MeltanoYmlRemoveManager
  | InstallationRemoveManager, InstallationRemoveManager
  | LockedDefinitionRemoveManager, LockedDefinitionRemoveManager => true
  | _, _ => false
  end.

(** The order in which [remove_plugin] lists the classes in its tuple. *)
Definition backend_order : list ManagerClass :=
  [DbRemoveManager; MeltanoYmlRemoveManager;
   InstallationRemoveManager; LockedDefinitionRemoveManager].

Section Service.

(** [ProjectPlugin] and [Project] are opaque to this module; [World] is
    everything the managers and the callbacks can read or change; [Exn] is
    what they can raise. *)
Variables ProjectPlugin Project World Exn : Type.

(** A removal manager object: its class, the constructor arguments it
    keeps, and its [plugin_removed] attribute.  The attribute is [None]
    until [remove()] has run on the object. *)
Record PluginLocationRemoveManager : Type := mkManager {
  manager_class : ManagerClass;
  plugin : ProjectPlugin;
  project : Project;
  plugin_removed : option bool
}.

(** What the module lets a caller observe, in the order it happens. *)
Inductive Event : Type :=
| PluginStatus (p : ProjectPlugin)
    (** [plugin_status_cb(plugin)] is called *)
| Construct (c : ManagerClass) (p : ProjectPlugin)
    (** the constructor of class [c] is called for [p] *)
| Remove (c : ManagerClass) (p : ProjectPlugin)
    (** [manager.remove()] is called on the [c] manager of [p] *)
| ManagerStatus (m : PluginLocationRemoveManager)
    (** [removal_manager_status_cb(manager)] is called *).

Definition M := Eff.M World Event Exn.

(** The manager classes live in another module.  Their constructors and
    their [remove()] methods are taken as parameters: for a class, a plugin
    and a project, the change to the world and either a normal return or the
    exception raised.  A [remove()] that returns leaves a flag in
    [plugin_removed]. *)
Variable construct_effect :
  ManagerClass -> ProjectPlugin -> Project -> World -> World * Result Exn unit.

Variable remove_effect :
  ManagerClass -> ProjectPlugin -> Project -> World -> World * Result Exn bool.

(** [self.project] *)
Variable self_project : Project.

(** The two callback types of [remove_plugins]. *)
Definition PluginStatusCb := ProjectPlugin -> World -> World * Result Exn unit.
Definition ManagerStatusCb :=
  PluginLocationRemoveManager -> World -> World * Result Exn unit.

(** The [plugins] argument: a sequence object.  What it holds is read from
    the world, so that a list the caller's code changes during the call is
    seen as changed; a tuple holds the same plugins in every world. *)
Definition PluginSequence := World -> list ProjectPlugin.

(** [meltano.core.utils.noop], the default of both callbacks. *)
Definition noop {A} : A -> World -> World * Result Exn unit :=
  fun _ w => (w, Return tt).

(** Python truth value of the [plugin_removed] attribute, as read by
    [not manager.plugin_removed]. *)
Definition truthy (flag : option bool) : bool :=
  match flag with
  | Some b => b
  | None => false
  end.

(** [Cls(plugin, self.project)] *)
Definition new_manager (c : ManagerClass) (p : ProjectPlugin)
  : M PluginLocationRemoveManager :=
  Eff.emit (Construct c p) ;;;
  Eff.call (construct_effect c p self_project) ;;;
  Eff.ret (mkManager c p self_project None).

(** [manager.remove()]: the object is updated in place; the embedding
    returns the updated object. *)
Definition remove (m : PluginLocationRemoveManager)
  : M PluginLocationRemoveManager :=
  Eff.emit (Remove (manager_class m) (plugin m)) ;;;
  b <- Eff.call (remove_effect (manager_class m) (plugin m) (project m)) ;;
  Eff.ret (mkManager (manager_class m) (plugin m) (project m) (Some b)).

(** [for manager in remove_managers: manager.remove()], yielding the tuple
    with every object in the state [remove()] left it. *)
Fixpoint remove_each (remove_managers : list PluginLocationRemoveManager)
  : M (list PluginLocationRemoveManager) :=
  match remove_managers with
  | [] => Eff.ret []
  | manager :: rest =>
      manager' <- remove manager ;;
      rest' <- remove_each rest ;;
      Eff.ret (manager' :: rest')
  end.

(** The tuple expression of [remove_plugin]: the four constructors, called
    from left to right. *)
Definition construct_managers (p : ProjectPlugin)
  : M (list PluginLocationRemoveManager) :=
  m1 <- new_manager DbRemoveManager p ;;
  m2 <- new_manager MeltanoYmlRemoveManager p ;;
  m3 <- new_manager InstallationRemoveManager p ;;
  m4 <- new_manager LockedDefinitionRemoveManager p ;;
  Eff.ret [m1; m2; m3; m4].

(** [PluginRemoveService.remove_plugin] *)
Definition remove_plugin (p : ProjectPlugin)
  : M (list PluginLocationRemoveManager) :=
  remove_managers <- construct_managers p ;;
  remove_each remove_managers.

Section Batch.

Variable plugin_status_cb : PluginStatusCb.
Variable removal_manager_status_cb : ManagerStatusCb.

(** The inner loop of [remove_plugins]:
    [for manager in removal_managers:
       any_not_removed = not manager.plugin_removed or any_not_removed
       removal_manager_status_cb(manager)] *)
Fixpoint status_loop (removal_managers : list PluginLocationRemoveManager)
  (any_not_removed : bool) : M bool :=
  match removal_managers with
  | [] => Eff.ret any_not_removed
  | manager :: rest =>
      let any_not_removed :=
        negb (truthy (plugin_removed manager)) || any_not_removed in
      Eff.emit (ManagerStatus manager) ;;;
      Eff.call (removal_manager_status_cb manager) ;;;
      status_loop rest any_not_removed
  end.

(** One iteration of the outer loop, from the current value of
    [removed_plugins] to the next one. *)
Definition plugin_step (p : ProjectPlugin) (removed_plugins : Z) : M Z :=
  Eff.emit (PluginStatus p) ;;;
  Eff.call (plugin_status_cb p) ;;;
  removal_managers <- remove_plugin p ;;
  any_not_removed <- status_loop removal_managers false ;;
  Eff.ret (if any_not_removed : bool
           then (removed_plugins - 1)%Z else removed_plugins).

(** [for plugin in plugins: ...].  The iterator asks the sequence for the
    item at the next index, in the world as it is then, and stops when
    there is none.  [None] means that the fuel ran out before the loop
    ended. *)
Fixpoint plugins_loop (fuel : nat) (plugins : PluginSequence) (index : nat)
  (removed_plugins : Z) (w : World)
  : option (World * list Event * Result Exn Z) :=
  match fuel with
  | 0 => None
  | S fuel' =>
      match nth_error (plugins w) index with
      | None => Some (w, [], Return removed_plugins)
      | Some p =>
          match plugin_step p removed_plugins w with
          | (w1, t1, Return removed_plugins') =>
              match plugins_loop fuel' plugins (S index) removed_plugins' w1
              with
              | Some (w2, t2, res) => Some (w2, t1 ++ t2, res)
              | None => None
              end
          | (w1, t1, Raise e) => Some (w1, t1, Raise e)
          end
      end
  end.

(** [PluginRemoveService.remove_plugins]: [len(plugins)] is taken once,
    before the loop. *)
Definition remove_plugins (fuel : nat) (plugins : PluginSequence) (w : World)
  : option (World * list Event * Result Exn (Z * Z)) :=
  let num_plugins := Z.of_nat (length (plugins w)) in
  let removed_plugins := num_plugins in
  match plugins_loop fuel plugins 0 removed_plugins w with
  | Some (w', tr, Return removed_plugins') =>
      Some (w', tr, Return (removed_plugins', num_plugins))
  | Some (w', tr, Raise e) => Some (w', tr, Raise e)
  | None => None
  end.

(** ** The loop over a given list

    Not part of the service: the iterations of the loop for the plugins of
    a list, one after the other.  Every finished run of [plugins_loop] is
    such a run over the plugins it took from the sequence. *)
Fixpoint loop_over (plugins : list ProjectPlugin) (removed_plugins : Z)
  : M Z :=
  match plugins with
  | [] => Eff.ret removed_plugins
  | p :: rest =>
      removed_plugins <- plugin_step p removed_plugins ;;
      loop_over rest removed_plugins
  end.

(** [remove_plugins] when the sequence holds the plugins of the list from
    the first to the last iteration. *)
Definition remove_plugins_over (plugins : list ProjectPlugin) : M (Z * Z) :=
  let num_plugins := Z.of_nat (length plugins) in
  let removed_plugins := num_plugins in
  removed_plugins <- loop_over plugins removed_plugins ;;
  Eff.ret (removed_plugins, num_plugins).

(** ** Calls made, in order

    [reported ms w w']: [removal_manager_status_cb] was called on each
    manager of [ms] in turn, from world [w] to world [w'], and returned. *)
Inductive reported
  : list PluginLocationRemoveManager -> World -> World -> Prop :=
| reported_nil (w : World) : reported [] w w
| reported_cons (m : PluginLocationRemoveManager)
    (ms : list PluginLocationRemoveManager) (w w1 w' : World) :
    removal_manager_status_cb m w = (w1, Return tt) ->
    reported ms w1 w' ->
    reported (m :: ms) w w'.

(** [processed ps mss w w']: for each plugin of [ps] in turn,
    [plugin_status_cb] was called on it and returned, then [remove_plugin]
    ran and returned the managers listed in [mss], then
    [removal_manager_status_cb] was called on each of these; all of this
    from world [w] to world [w']. *)
Inductive processed
  : list ProjectPlugin -> list (list PluginLocationRemoveManager) ->
    World -> World -> Prop :=
| processed_nil (w : World) : processed [] [] w w
| processed_cons (p : ProjectPlugin) (ps : list ProjectPlugin)
    (ms : list PluginLocationRemoveManager)
    (mss : list (list PluginLocationRemoveManager))
    (w w1 w2 w3 w' : World) (tr : list Event) :
    plugin_status_cb p w = (w1, Return tt) ->
    remove_plugin p w1 = (w2, tr, Return ms) ->
    reported ms w2 w3 ->
    processed ps mss w3 w' ->
    processed (p :: ps) (ms :: mss) w w'.

(** A piece of foreign code leaves the content of the sequence alone. *)
Definition keeps_sequence (plugins : PluginSequence) {A}
  (f : World -> World * Result Exn A) : Prop :=
  forall w, plugins (fst (f w)) = plugins w.

(** Nothing that runs during [remove_plugins] changes the sequence:
    neither callback, no constructor, no [remove()]. *)
Definition sequence_untouched (plugins : PluginSequence) : Prop :=
  (forall p, keeps_sequence plugins (plugin_status_cb p)) /\
  (forall m, keeps_sequence plugins (removal_manager_status_cb m)) /\
  (forall c p proj, keeps_sequence plugins (construct_effect c p proj)) /\
  (forall c p proj, keeps_sequence plugins (remove_effect c p proj)).

End Batch.

(** ** Observations on traces

    The definitions below are not part of the service; they name what the
    statements about it talk about. *)

Definition is_plugin_status (ev : Event) : bool :=
  match ev with PluginStatus _ => true | _ => false end.

Definition is_manager_status (ev : Event) : bool :=
  match ev with ManagerStatus _ => true | _ => false end.

Definition is_remove (ev : Event) : bool :=
  match ev with Remove _ _ => true | _ => false end.

(** The events of a completed [remove_plugin p]: four constructions, then
    four [remove()] calls. *)
Definition removal_events (p : ProjectPlugin) : list Event :=
  map (fun c => Construct c p) backend_order ++
  map (fun c => Remove c p) backend_order.

(** The events of one completed iteration of the outer loop whose managers
    ended up as [ms]. *)
Definition plugin_block (p : ProjectPlugin)
  (ms : list PluginLocationRemoveManager) : list Event :=
  PluginStatus p :: removal_events p ++ map ManagerStatus ms.

(** The managers handed to [removal_manager_status_cb], oldest first. *)
Fixpoint manager_reports (tr : list Event) : list PluginLocationRemoveManager :=
  match tr with
  | [] => []
  | ManagerStatus m :: tr' => m :: manager_reports tr'
  | _ :: tr' => manager_reports tr'
  end.

(** Cut a trace at every [plugin_status_cb] call: the managers reported
    before the first such call, and for each call the managers reported
    between it and the next one. *)
Fixpoint split_reports (tr : list Event)
  : list PluginLocationRemoveManager * list (list PluginLocationRemoveManager) :=
  match tr with
  | [] => ([], [])
  | ev :: tr' =>
      let (cur, groups) := split_reports tr' in
      match ev with
      | PluginStatus _ => ([], cur :: groups)
      | ManagerStatus m => (m :: cur, groups)
      | _ => (cur, groups)
      end
  end.

(** Per plugin announced by [plugin_status_cb], the managers that were
    reported for it. *)
Definition reports (tr : list Event) : list (list PluginLocationRemoveManager) :=
  snd (split_reports tr).

(** The manager reports [plugin_removed] true. *)
Definition reports_removed (m : PluginLocationRemoveManager) : bool :=
  truthy (plugin_removed m).

Definition all_removed (ms : list PluginLocationRemoveManager) : bool :=
  forallb reports_removed ms.

Definition some_not_removed (ms : list PluginLocationRemoveManager) : bool :=
  existsb (fun m => negb (reports_removed m)) ms.

(** How many of the managers report [plugin_removed] false. *)
Definition not_removed_count (ms : list PluginLocationRemoveManager) : nat :=
  length (filter (fun m => negb (reports_removed m)) ms).

Definition count_where {A} (f : A -> bool) (l : list A) : nat :=
  length (filter f l).

(** [plugin_status_cb] is called for [p] before a [remove()] of [p]. *)
Definition status_before_removal (tr : list Event) (p : ProjectPlugin) : Prop :=
  exists l1 l2 c, tr = l1 ++ PluginStatus p :: l2 /\ In (Remove c p) l2.

(** Every backend attempt for [p] is followed by a
    [removal_manager_status_cb] call for that backend's manager. *)
Definition status_after_each_attempt (tr : list Event) (p : ProjectPlugin)
  : Prop :=
  forall c, In c backend_order ->
    exists l1 l2 m,
      tr = l1 ++ Remove c p :: l2 /\ In (ManagerStatus m) l2 /\
      manager_class m = c /\ plugin m = p.

(** The plugins announced to [plugin_status_cb], oldest first. *)
Fixpoint announced (tr : list Event) : list ProjectPlugin :=
  match tr with
  | [] => []
  | PluginStatus p :: tr' => p :: announced tr'
  | _ :: tr' => announced tr'
  end.

(** Progress callbacks for plugin [p]: one before its removal and, after
    each backend attempt, one for the manager of that backend. *)
Definition progress_reported (tr : list Event) (p : ProjectPlugin) : Prop :=
  status_before_removal tr p /\ status_after_each_attempt tr p.

(** The trace of a batch that completed every iteration: the blocks of the
    plugins, in input order. *)
Fixpoint batch_trace (plugins : list ProjectPlugin)
  (mss : list (list PluginLocationRemoveManager)) : list Event :=
  match plugins, mss with
  | p :: plugins', ms :: mss' => plugin_block p ms ++ batch_trace plugins' mss'
  | _, _ => []
  end.

(** Add [d] to the counter a run returned. *)
Definition shift (d : Z) (res : Result Exn Z) : Result Exn Z :=
  match res with
  | Return r => Return (r + d)%Z
  | Raise e => Raise e
  end.

(** The four managers of plugin [p], in the order of the tuple. *)
Definition managers_of (p : ProjectPlugin)
  (ms : list PluginLocationRemoveManager) : Prop :=
  map manager_class ms = backend_order /\
  Forall (fun m => plugin m = p /\ project m = self_project /\
                   plugin_removed m <> None) ms.

End Service.

Arguments PluginStatus {ProjectPlugin Project} p.
Arguments Construct {ProjectPlugin Project} c p.
Arguments Remove {ProjectPlugin Project} c p.
Arguments noop {World Exn A} _ _.
Arguments manager_class {ProjectPlugin Project} _.
Arguments plugin {ProjectPlugin Project} _.
Arguments project {ProjectPlugin Project} _.
Arguments plugin_removed {ProjectPlugin Project} _.
Arguments ManagerStatus {ProjectPlugin Project} m.
Arguments removal_events {ProjectPlugin Project} p.
Arguments is_plugin_status {ProjectPlugin Project} ev.
Arguments is_manager_status {ProjectPlugin Project} ev.
Arguments is_remove {ProjectPlugin Project} ev.
Arguments reports_removed {ProjectPlugin Project} m.
Arguments all_removed {ProjectPlugin Project} ms.
Arguments some_not_removed {ProjectPlugin Project} ms.
Arguments not_removed_count {ProjectPlugin Project} ms.
Arguments announced {ProjectPlugin Project} tr.

(** ** A small project to run the service on

    Stand-ins for the manager classes and for a caller, to run the service
    on concrete inputs; nothing here describes the managers of meltano.
    Plugins are numbers.  The world lists the places where a plugin is still
    present, counts the progress ticks a caller's callbacks made, and holds
    the list object a caller may pass as the batch.  [remove()] deletes the
    entry of its backend and reports whether there was one; the manifest of
    plugin [demo_locked] cannot be written, and no installation manager can
    be built for plugin [demo_unbuildable]. *)
Module Demo.

Record World : Type := mkWorld {
  present : list (ManagerClass * nat);
  ticks : nat;
  batch : list nat
}.

Definition Exn : Type := (ManagerClass * nat)%type.

Definition demo_locked : nat := 7.

Definition demo_unbuildable : nat := 8.

Definition entry_eqb (a b : ManagerClass * nat) : bool :=
  ManagerClass_eqb (fst a) (fst b) && Nat.eqb (snd a) (snd b).

Definition construct_effect (c : ManagerClass) (p : nat) (_ : unit)
  (w : World) : World * Result Exn unit :=
  if ManagerClass_eqb c InstallationRemoveManager
     && Nat.eqb p demo_unbuildable
  then (w, Raise (c, p))
  else (w, Return tt).

Definition remove_effect (c : ManagerClass) (p : nat) (_ : unit) (w : World)
  : World * Result Exn bool :=
  if ManagerClass_eqb c MeltanoYmlRemoveManager && Nat.eqb p demo_locked
  then (w, Raise (c, p))
  else if existsb (entry_eqb (c, p)) (present w)
       then (mkWorld (filter (fun e => negb (entry_eqb (c, p) e)) (present w))
               (ticks w) (batch w),
             Return true)
       else (w, Return false).

(** A plugin present in all four places. *)
Definition installed (p : nat) : list (ManagerClass * nat) :=
  map (fun c => (c, p)) backend_order.

(** Callbacks that count how often they were called. *)
Definition tick {A} (_ : A) (w : World) : World * Result Exn unit :=
  (mkWorld (present w) (S (ticks w)) (batch w), Return tt).

(** A plugin callback that puts the files of the plugin back. *)
Definition reinstall (p : nat) (w : World) : World * Result Exn unit :=
  (mkWorld ((InstallationRemoveManager, p) :: present w) (ticks w) (batch w),
   Return tt).

(** A plugin callback that, when told of plugin [trigger], appends plugin
    [extra] to the batch list. *)
Definition append_on (trigger extra : nat) (p : nat) (w : World)
  : World * Result Exn unit :=
  if Nat.eqb p trigger
  then (mkWorld (present w) (ticks w) (batch w ++ [extra]), Return tt)
  else (w, Return tt).

(** A plugin callback that takes the last plugin off the batch list. *)
Definition drop_last (_ : nat) (w : World) : World * Result Exn unit :=
  (mkWorld (present w) (ticks w) (removelast (batch w)), Return tt).

(** A plugin callback that refuses one plugin. *)
Definition refuse_plugin (bad : nat) (p : nat) (w : World)
  : World * Result Exn unit :=
  if Nat.eqb p bad then (w, Raise (DbRemoveManager, p)) else (w, Return tt).

(** A manager callback that refuses the managers of one class. *)
Definition refuse_manager (bad : ManagerClass)
  (m : PluginLocationRemoveManager nat unit) (w : World)
  : World * Result Exn unit :=
  if ManagerClass_eqb (manager_class m) bad
  then (w, Raise (bad, plugin m))
  else (w, Return tt).

(** What the managers read and change: the entries, and the caller's batch
    list. *)
Definition view (w : World) : list (ManagerClass * nat) * list nat :=
  (present w, batch w).

(** The batch is the list object held in the world. *)
Definition batch_list : World -> list nat := batch.

(** The batch is a tuple. *)
Definition tuple (l : list nat) : World -> list nat := fun _ => l.

Definition run_plugins cbP cbM (fuel : nat) (plugins : World -> list nat)
  (w : World) :=
  remove_plugins construct_effect remove_effect tt cbP cbM fuel plugins w.

(** [remove_plugins(plugins)] on a tuple, both callbacks left at their
    default. *)
Definition run_default (l : list nat) (w : World) :=
  run_plugins noop noop (S (length l)) (tuple l) w.

Definition run_plugin (p : nat) (w : World) :=
  remove_plugin construct_effect remove_effect tt p w.

(** Plugins 1 and 3 are fully installed, plugin 2 has no installed files. *)
Definition w0 : World :=
  mkWorld
    (installed 1 ++
     [(DbRemoveManager, 2); (MeltanoYmlRemoveManager, 2);
      (LockedDefinitionRemoveManager, 2)] ++
     installed 3 ++ [(DbRemoveManager, demo_locked)])
    0 [].

(** The same project, with the caller's batch list holding [l]. *)
Definition with_batch (l : list nat) : World :=
  mkWorld (present w0) 0 l.

(** What a run left: its outcome, its trace, its world. *)
Definition outcome {A} (run : option (World * list (Event nat unit) * A))
  : option A :=
  option_map snd run.

Definition trace_of {A} (run : option (World * list (Event nat unit) * A))
  : list (Event nat unit) :=
  match run with
  | Some (_, tr, _) => tr
  | None => []
  end.

Definition world_of {A} (run : option (World * list (Event nat unit) * A))
  (w : World) : World :=
  match run with
  | Some (w', _, _) => w'
  | None => w
  end.

End Demo.

(** * Properties *)

(** ** The effect monad *)

Section EffFacts.

Variables W Ev E : Type.

Lemma bind_Return_inv A B (m : Eff.M W Ev E A) (k : A -> Eff.M W Ev E B)
  w w' tr b :
  Eff.bind m k w = (w', tr, Return b) ->
  exists w1 t1 a t2,
    m w = (w1, t1, Return a) /\ k a w1 = (w', t2, Return b) /\ tr = t1 ++ t2.
Proof.
  unfold Eff.bind. destruct (m w) as [[w1 t1] [a|e]]; [|discriminate].
  destruct (k a w1) as [[w2 t2] r] eqn:Hk. intros H. inversion H; subst.
  exists w1, t1, a, t2. auto.
Qed.

Lemma bind_Return_intro A B (m : Eff.M W Ev E A) (k : A -> Eff.M W Ev E B)
  w w1 t1 a w2 t2 r :
  m w = (w1, t1, Return a) -> k a w1 = (w2, t2, r) ->
  Eff.bind m k w = (w2, t1 ++ t2, r).
Proof. unfold Eff.bind. intros -> ->. reflexivity. Qed.

Lemma bind_Raise_intro A B (m : Eff.M W Ev E A) (k : A -> Eff.M W Ev E B)
  w w1 t1 e :
  m w = (w1, t1, Raise e) -> Eff.bind m k w = (w1, t1, Raise e).
Proof. unfold Eff.bind. intros ->. reflexivity. Qed.

Lemma call_inv A (f : W -> W * Result E A) w w' tr r :
  @Eff.call W Ev E A f w = (w', tr, r) -> f w = (w', r) /\ tr = [].
Proof.
  unfold Eff.call. destruct (f w) as [w1 r1]. intros H. inversion H. auto.
Qed.

Lemma call_intro A (f : W -> W * Result E A) w w' r :
  f w = (w', r) -> @Eff.call W Ev E A f w = (w', [], r).
Proof. unfold Eff.call. intros ->. reflexivity. Qed.

Lemma emit_inv (ev : Ev) w w' tr (r : Result E unit) :
  @Eff.emit W Ev E ev w = (w', tr, r) -> w' = w /\ tr = [ev] /\ r = Return tt.
Proof. unfold Eff.emit. intros H. inversion H. auto. Qed.

Lemma ret_inv A (a : A) (w w' : W) (tr : list Ev) (r : Result E A) :
  @Eff.ret W Ev E A a w = (w', tr, r) -> w' = w /\ tr = [] /\ r = Return a.
Proof. unfold Eff.ret. intros H. inversion H. auto. Qed.

End EffFacts.

(** Take a run that returned apart, one sequencing step at a time. *)
Ltac step_return H :=
  let w1 := fresh "w" in
  let t1 := fresh "t" in
  let a := fresh "a" in
  let t2 := fresh "t" in
  let H1 := fresh "Hm" in
  let H2 := fresh "Hk" in
  let Ht := fresh "Ht" in
  apply bind_Return_inv in H;
  destruct H as (w1 & t1 & a & t2 & H1 & H2 & Ht);
  first [ apply emit_inv in H1; destruct H1 as (? & ? & _)
        | apply call_inv in H1; destruct H1 as (H1 & ?)
        | idtac ];
  subst.

(** ** The service *)

Section ServiceFacts.

Variables ProjectPlugin Project World Exn : Type.

Variable construct_effect :
  ManagerClass -> ProjectPlugin -> Project -> World -> World * Result Exn unit.

Variable remove_effect :
  ManagerClass -> ProjectPlugin -> Project -> World -> World * Result Exn bool.

Variable self_project : Project.

Local Notation "'Manager'" := (PluginLocationRemoveManager ProjectPlugin Project).
Local Notation "'Trace'" := (list (Event ProjectPlugin Project)).

(** *** One manager, one plugin *)

Lemma new_manager_returns (c : ManagerClass) (p : ProjectPlugin) (m : Manager)
  (w w' : World) (tr : Trace) :
  new_manager construct_effect self_project c p w = (w', tr, Return m) ->
  construct_effect c p self_project w = (w', Return tt) /\
  tr = [Construct c p] /\ m = mkManager c p self_project None.
Proof.
  unfold new_manager, Eff.bind, Eff.emit, Eff.call, Eff.ret.
  destruct (construct_effect c p self_project w) as [w1 [[]|e]];
    intros H; inversion H; subst. auto.
Qed.

Lemma construct_managers_returns (p : ProjectPlugin) (ms : list Manager)
  (w w' : World) (tr : Trace) :
  construct_managers construct_effect self_project p w =
    (w', tr, Return ms) ->
  tr = map (fun c => Construct c p) backend_order /\
  ms = map (fun c => mkManager c p self_project None) backend_order /\
  exists v1 v2 v3,
    construct_effect DbRemoveManager p self_project w = (v1, Return tt) /\
    construct_effect MeltanoYmlRemoveManager p self_project v1 =
      (v2, Return tt) /\
    construct_effect InstallationRemoveManager p self_project v2 =
      (v3, Return tt) /\
    construct_effect LockedDefinitionRemoveManager p self_project v3 =
      (w', Return tt).
Proof.
  unfold construct_managers. intros H.
  apply bind_Return_inv in H.
  destruct H as (v1 & t1 & m1 & r1 & H1 & H & ->).
  apply bind_Return_inv in H.
  destruct H as (v2 & t2 & m2 & r2 & H2 & H & ->).
  apply bind_Return_inv in H.
  destruct H as (v3 & t3 & m3 & r3 & H3 & H & ->).
  apply bind_Return_inv in H.
  destruct H as (v4 & t4 & m4 & r4 & H4 & H & ->).
  apply ret_inv in H. destruct H as (-> & -> & Hr). inversion Hr; subst.
  apply new_manager_returns in H1, H2, H3, H4.
  destruct H1 as (H1 & -> & ->), H2 as (H2 & -> & ->),
           H3 as (H3 & -> & ->), H4 as (H4 & -> & ->).
  split; [reflexivity|]. split; [reflexivity|].
  exists v1, v2, v3. auto.
Qed.

Lemma construct_managers_trace (p : ProjectPlugin) (w w' : World) (tr : Trace)
  (res : Result Exn (list Manager)) :
  construct_managers construct_effect self_project p w = (w', tr, res) ->
  exists j, tr = map (fun c => Construct c p) (firstn j backend_order).
Proof.
  unfold construct_managers, new_manager, Eff.bind, Eff.emit, Eff.call,
    Eff.ret.
  destruct (construct_effect DbRemoveManager p self_project w)
    as [v1 [[]|e1]]; [|intros H; inversion H; exists 1; reflexivity].
  destruct (construct_effect MeltanoYmlRemoveManager p self_project v1)
    as [v2 [[]|e2]]; [|intros H; inversion H; exists 2; reflexivity].
  destruct (construct_effect InstallationRemoveManager p self_project v2)
    as [v3 [[]|e3]]; [|intros H; inversion H; exists 3; reflexivity].
  destruct (construct_effect LockedDefinitionRemoveManager p self_project v3)
    as [v4 [[]|e4]]; intros H; inversion H; exists 4; reflexivity.
Qed.

Lemma remove_returns (m m' : Manager) (w w' : World) (tr : Trace) :
  remove remove_effect m w = (w', tr, Return m') ->
  exists b,
    remove_effect (manager_class m) (plugin m) (project m) w = (w', Return b) /\
    tr = [Remove (manager_class m) (plugin m)] /\
    m' = mkManager (manager_class m) (plugin m) (project m) (Some b).
Proof.
  unfold remove. intros H.
  step_return H. step_return Hk.
  apply ret_inv in Hk0. destruct Hk0 as (-> & -> & Hr).
  inversion Hr; subst. exists a0. auto.
Qed.

Lemma remove_each_returns (ms ms' : list Manager) (w w' : World) (tr : Trace) :
  remove_each remove_effect ms w = (w', tr, Return ms') ->
  tr = map (fun m => Remove (manager_class m) (plugin m)) ms /\
  Forall2 (fun m m' =>
             manager_class m' = manager_class m /\ plugin m' = plugin m /\
             project m' = project m /\ plugin_removed m' <> None) ms ms'.
Proof.
  revert ms' w w' tr. induction ms as [|m ms IH]; intros ms' w w' tr H.
  - apply ret_inv in H. destruct H as (_ & -> & Hr). inversion Hr. auto.
  - cbn [remove_each] in H.
    step_return H. step_return Hk.
    apply ret_inv in Hk0. destruct Hk0 as (-> & -> & Hr). inversion Hr; subst.
    apply remove_returns in Hm. destruct Hm as (b & _ & -> & ->).
    apply IH in Hm0. destruct Hm0 as (-> & HF).
    split; [rewrite app_nil_r; reflexivity|].
    constructor; [cbn; repeat split; discriminate | exact HF].
Qed.

Lemma remove_each_cons_returns (m : Manager) (rest ms' : list Manager)
  (w w' : World) (tr : Trace) :
  remove_each remove_effect (m :: rest) w = (w', tr, Return ms') ->
  exists w1 b tr' rest',
    remove_effect (manager_class m) (plugin m) (project m) w =
      (w1, Return b) /\
    remove_each remove_effect rest w1 = (w', tr', Return rest') /\
    ms' = mkManager (manager_class m) (plugin m) (project m) (Some b) :: rest'.
Proof.
  cbn [remove_each]. intros H. step_return H. step_return Hk.
  apply ret_inv in Hk0. destruct Hk0 as (-> & -> & Hr). inversion Hr; subst.
  apply remove_returns in Hm. destruct Hm as (b & Hb & -> & ->).
  exists w0, b, t1, a0. auto.
Qed.

Lemma remove_plugin_unfold (p : ProjectPlugin) (w w1 : World) (tc : Trace)
  (ms0 : list Manager) :
  construct_managers construct_effect self_project p w =
    (w1, tc, Return ms0) ->
  remove_plugin construct_effect remove_effect self_project p w =
  match remove_each remove_effect
          (map (fun c => mkManager c p self_project None) backend_order) w1
  with
  | (w', t, r) => (w', map (fun c => Construct c p) backend_order ++ t, r)
  end.
Proof.
  intros Hc. unfold remove_plugin, Eff.bind. rewrite Hc.
  apply construct_managers_returns in Hc. destruct Hc as (-> & -> & _).
  reflexivity.
Qed.

Lemma remove_plugin_returns (p : ProjectPlugin) (ms : list Manager)
  (w w' : World) (tr : Trace) :
  remove_plugin construct_effect remove_effect self_project p w =
    (w', tr, Return ms) ->
  tr = removal_events p /\ managers_of self_project p ms.
Proof.
  unfold remove_plugin. intros H. apply bind_Return_inv in H.
  destruct H as (w1 & tc & ms0 & te & Hc & He & ->).
  apply construct_managers_returns in Hc. destruct Hc as (-> & -> & _).
  apply remove_each_returns in He. destruct He as (-> & HF).
  split; [unfold removal_events; rewrite map_map; reflexivity|].
  cbn [backend_order map] in HF.
  repeat match goal with
         | H : Forall2 _ (_ :: _) _ |- _ => inversion H; subst; clear H
         | H : Forall2 _ [] _ |- _ => inversion H; subst; clear H
         end.
  repeat match goal with
         | H : _ /\ _ |- _ => destruct H
         end.
  cbn in *. unfold managers_of. cbn.
  split; [unfold backend_order; congruence|].
  repeat constructor; assumption.
Qed.

(** C3. A call of [remove_plugin] that returns has called the four
    constructors, of the classes [DbRemoveManager],
    [MeltanoYmlRemoveManager], [InstallationRemoveManager] and
    [LockedDefinitionRemoveManager] in this order, has then called
    [remove()] on each of the four managers in the same order, each call in
    the world the previous one left, and returns the four managers in that
    order, each with the flag its [remove()] set. *)
Theorem remove_plugin_order (p : ProjectPlugin) (ms : list Manager)
  (w w' : World) (tr : Trace) :
  remove_plugin construct_effect remove_effect self_project p w =
    (w', tr, Return ms) ->
  tr = [Construct DbRemoveManager p; Construct MeltanoYmlRemoveManager p;
        Construct InstallationRemoveManager p;
        Construct LockedDefinitionRemoveManager p;
        Remove DbRemoveManager p; Remove MeltanoYmlRemoveManager p;
        Remove InstallationRemoveManager p;
        Remove LockedDefinitionRemoveManager p] /\
  map manager_class ms =
    [DbRemoveManager; MeltanoYmlRemoveManager;
     InstallationRemoveManager; LockedDefinitionRemoveManager] /\
  exists v1 v2 v3 v4 w1 w2 w3 b1 b2 b3 b4,
    construct_effect DbRemoveManager p self_project w = (v1, Return tt) /\
    construct_effect MeltanoYmlRemoveManager p self_project v1 =
      (v2, Return tt) /\
    construct_effect InstallationRemoveManager p self_project v2 =
      (v3, Return tt) /\
    construct_effect LockedDefinitionRemoveManager p self_project v3 =
      (v4, Return tt) /\
    remove_effect DbRemoveManager p self_project v4 = (w1, Return b1) /\
    remove_effect MeltanoYmlRemoveManager p self_project w1 =
      (w2, Return b2) /\
    remove_effect InstallationRemoveManager p self_project w2 =
      (w3, Return b3) /\
    remove_effect LockedDefinitionRemoveManager p self_project w3 =
      (w', Return b4) /\
    ms = [mkManager DbRemoveManager p self_project (Some b1);
          mkManager MeltanoYmlRemoveManager p self_project (Some b2);
          mkManager InstallationRemoveManager p self_project (Some b3);
          mkManager LockedDefinitionRemoveManager p self_project (Some b4)].
Proof.
  intros H. pose proof (remove_plugin_returns _ _ H) as (Htr & Hcls & _).
  split; [exact Htr|]. split; [exact Hcls|].
  clear Htr Hcls. unfold remove_plugin in H. apply bind_Return_inv in H.
  destruct H as (v4 & tc & ms0 & te & Hc & H & _).
  apply construct_managers_returns in Hc.
  destruct Hc as (_ & -> & v1 & v2 & v3 & C1 & C2 & C3 & C4).
  cbn [backend_order map] in H.
  apply remove_each_cons_returns in H.
  destruct H as (w1 & b1 & tx1 & rx1 & H1 & H & ->). cbn in H1.
  apply remove_each_cons_returns in H.
  destruct H as (w2 & b2 & tx2 & rx2 & H2 & H & ->). cbn in H2.
  apply remove_each_cons_returns in H.
  destruct H as (w3 & b3 & tx3 & rx3 & H3 & H & ->). cbn in H3.
  apply remove_each_cons_returns in H.
  destruct H as (w4 & b4 & tx4 & rx4 & H4 & H & ->). cbn in H4.
  apply ret_inv in H. destruct H as (-> & _ & Hr). inversion Hr; subst.
  exists v1, v2, v3, v4, w1, w2, w3, b1, b2, b3, b4.
  repeat split; assumption.
Qed.

(** *** Faults in [remove_plugin] *)



Lemma remove_each_trace (ms : list Manager) (w w' : World) (tr : Trace)
  (res : Result Exn (list Manager)) :
  remove_each remove_effect ms w = (w', tr, res) ->
  exists k,
    tr = map (fun m => Remove (manager_class m) (plugin m)) (firstn k ms).
Proof.
  revert w w' tr res. induction ms as [|m ms IH]; intros w w' tr res H.
  - apply ret_inv in H. destruct H as (_ & -> & _). exists 0. reflexivity.
  - cbn [remove_each] in H.
    unfold remove, Eff.bind, Eff.emit, Eff.call, Eff.ret in H.
    destruct (remove_effect _ _ _ w) as [w1 [b|e]].
    + destruct (remove_each remove_effect ms w1) as [[w2 t2] res2] eqn:Hrest.
      apply IH in Hrest. destruct Hrest as (k & ->).
      exists (S k). destruct res2; inversion H; subst; cbn;
        rewrite ?app_nil_r; reflexivity.
    + inversion H; subst. exists 1. reflexivity.
Qed.

(** Whatever the outcome of [remove_plugin], its events are an initial part
    of the eight events of a call that returns. *)
Lemma remove_plugin_trace (p : ProjectPlugin) (w w' : World) (tr : Trace)
  (res : Result Exn (list Manager)) :
  remove_plugin construct_effect remove_effect self_project p w =
    (w', tr, res) ->
  exists suffix, tr ++ suffix = removal_events p.
Proof.
  destruct (construct_managers construct_effect self_project p w)
    as [[w1 tc] [ms0|e]] eqn:Hc.
  - erewrite remove_plugin_unfold; [|exact Hc].
    destruct (remove_each _ _ w1) as [[w2 t2] res2] eqn:Heach.
    intros H. inversion H; subst.
    apply remove_each_trace in Heach. destruct Heach as (k & ->).
    exists (map (fun c => Remove c p) (skipn k backend_order)).
    rewrite firstn_map, map_map. unfold removal_events.
    cbn [manager_class plugin app backend_order map]. do 4 f_equal.
    change [DbRemoveManager; MeltanoYmlRemoveManager;
            InstallationRemoveManager; LockedDefinitionRemoveManager]
      with backend_order.
    rewrite <- map_app, firstn_skipn. reflexivity.
  - unfold remove_plugin, Eff.bind. rewrite Hc.
    intros H. inversion H; subst.
    apply construct_managers_trace in Hc. destruct Hc as (j & ->).
    exists (map (fun c => Construct c p) (skipn j backend_order) ++
            map (fun c => Remove c p) backend_order).
    unfold removal_events.
    rewrite app_assoc, <- map_app, firstn_skipn. reflexivity.
Qed.

Section BatchFacts.

Variable plugin_status_cb : PluginStatusCb ProjectPlugin World Exn.
Variable removal_manager_status_cb :
  ManagerStatusCb ProjectPlugin Project World Exn.

Lemma status_loop_returns (ms : list Manager) (any any' : bool)
  (w w' : World) (tr : Trace) :
  status_loop removal_manager_status_cb ms any w = (w', tr, Return any') ->
  tr = map ManagerStatus ms /\ any' = some_not_removed ms || any.
Proof.
  revert any w tr. induction ms as [|m ms IH]; intros any w tr H.
  - apply ret_inv in H. destruct H as (_ & -> & Hr). inversion Hr. auto.
  - cbn [status_loop] in H. step_return H. step_return Hk.
    apply IH in Hk0. destruct Hk0 as (-> & ->).
    split; [reflexivity|].
    cbn. unfold reports_removed. rewrite orb_assoc.
    f_equal. apply orb_comm.
Qed.

Lemma plugin_step_returns (p : ProjectPlugin) (r r' : Z) (w w' : World)
  (tr : Trace) :
  plugin_step construct_effect remove_effect self_project plugin_status_cb
    removal_manager_status_cb p r w = (w', tr, Return r') ->
  exists ms,
    managers_of self_project p ms /\ tr = plugin_block p ms /\
    r' = (if some_not_removed ms then r - 1 else r)%Z.
Proof.
  unfold plugin_step. intros H.
  step_return H. step_return Hk. step_return Hk0. step_return Hk.
  apply ret_inv in Hk0. destruct Hk0 as (-> & -> & Hr). inversion Hr; subst.
  apply remove_plugin_returns in Hm0. destruct Hm0 as (-> & Hms).
  apply status_loop_returns in Hm1. destruct Hm1 as (-> & ->).
  exists a1. split; [exact Hms|]. split.
  - unfold plugin_block. cbn. rewrite app_nil_r. reflexivity.
  - rewrite orb_false_r. reflexivity.
Qed.

(** *** The batch *)

Lemma split_reports_statuses (ms : list Manager) (rest : Trace) :
  split_reports (map ManagerStatus ms ++ rest) =
  (ms ++ fst (split_reports rest), snd (split_reports rest)).
Proof.
  induction ms as [|m ms IH]; cbn [map app split_reports].
  - destruct (split_reports rest); reflexivity.
  - rewrite IH. reflexivity.
Qed.

Lemma split_reports_block (p : ProjectPlugin) (ms : list Manager)
  (rest : Trace) :
  fst (split_reports rest) = [] ->
  split_reports (plugin_block p ms ++ rest) =
  ([], ms :: snd (split_reports rest)).
Proof.
  intros Hrest. unfold plugin_block, removal_events.
  cbn [backend_order map app split_reports].
  rewrite split_reports_statuses, Hrest, app_nil_r. reflexivity.
Qed.

Lemma split_reports_batch (plugins : list ProjectPlugin)
  (mss : list (list Manager)) :
  length plugins = length mss ->
  split_reports (batch_trace plugins mss) = ([], mss).
Proof.
  revert mss. induction plugins as [|p ps IH]; intros [|ms mss] Hlen;
    try discriminate; [reflexivity|].
  cbn [batch_trace]. injection Hlen as Hlen. specialize (IH _ Hlen).
  rewrite split_reports_block; rewrite IH; reflexivity.
Qed.

Lemma all_removed_negb (ms : list Manager) :
  all_removed ms = negb (some_not_removed ms).
Proof.
  unfold all_removed, some_not_removed.
  induction ms as [|m ms IH]; [reflexivity|].
  cbn. rewrite IH, negb_orb, negb_involutive. reflexivity.
Qed.

Lemma count_removed_split (mss : list (list Manager)) :
  count_where all_removed mss + count_where some_not_removed mss =
  length mss.
Proof.
  unfold count_where. induction mss as [|ms mss IH]; [reflexivity|].
  cbn. rewrite all_removed_negb.
  destruct (some_not_removed ms); cbn; lia.
Qed.

Lemma loop_over_returns (plugins : list ProjectPlugin) (r r' : Z)
  (w w' : World) (tr : Trace) :
  loop_over construct_effect remove_effect self_project plugin_status_cb
    removal_manager_status_cb plugins r w = (w', tr, Return r') ->
  exists mss,
    Forall2 (managers_of self_project) plugins mss /\
    tr = batch_trace plugins mss /\
    r' = (r - Z.of_nat (count_where some_not_removed mss))%Z.
Proof.
  revert r w tr. induction plugins as [|p ps IH]; intros r w tr H.
  - apply ret_inv in H. destruct H as (_ & -> & Hr). inversion Hr; subst.
    exists []. repeat split; [constructor | cbn; lia].
  - cbn [loop_over] in H. step_return H.
    apply plugin_step_returns in Hm. destruct Hm as (ms & Hms & -> & ->).
    apply IH in Hk. destruct Hk as (mss & HF & -> & ->).
    exists (ms :: mss). split; [constructor; assumption|].
    split; [reflexivity|].
    unfold count_where. cbn [filter].
    destruct (some_not_removed ms); cbn [length]; lia.
Qed.

Lemma remove_plugins_returns (plugins : list ProjectPlugin) (w w' : World)
  (tr : Trace) (removed attempted : Z) :
  remove_plugins_over construct_effect remove_effect self_project plugin_status_cb
    removal_manager_status_cb plugins w = (w', tr, Return (removed, attempted)) ->
  exists mss,
    Forall2 (managers_of self_project) plugins mss /\
    tr = batch_trace plugins mss /\
    reports tr = mss /\
    attempted = Z.of_nat (length plugins) /\
    removed = (attempted - Z.of_nat (count_where some_not_removed mss))%Z.
Proof.
  unfold remove_plugins_over. intros H. step_return H.
  apply ret_inv in Hk. destruct Hk as (-> & -> & Hr). inversion Hr; subst.
  apply loop_over_returns in Hm. destruct Hm as (mss & HF & -> & ->).
  exists mss. rewrite app_nil_r. repeat split; try assumption.
  unfold reports. rewrite split_reports_batch; [reflexivity|].
  eapply Forall2_length; eassumption.
Qed.

(** C9. One iteration of the loop lowers [removed_plugins] by exactly one
    when one, two, three or four of the plugin's managers report
    [plugin_removed] false, and leaves it unchanged when none does. *)
Theorem plugin_step_decrements_once (p : ProjectPlugin) (r r' : Z)
  (w w' : World) (tr : Trace) :
  plugin_step construct_effect remove_effect self_project plugin_status_cb
    removal_manager_status_cb p r w = (w', tr, Return r') ->
  length (manager_reports tr) = 4 /\
  (not_removed_count (manager_reports tr) = 0 -> r' = r) /\
  (1 <= not_removed_count (manager_reports tr) <= 4 -> r' = (r - 1)%Z).
Proof.
  intros H. apply plugin_step_returns in H.
  destruct H as (ms & (Hcls & _) & -> & ->).
  assert (Hrep : manager_reports (plugin_block p ms) = ms).
  { unfold plugin_block, removal_events.
    cbn [backend_order map app manager_reports].
    clear. induction ms as [|m ms IH]; [reflexivity|].
    cbn. rewrite IH. reflexivity. }
  rewrite Hrep.
  assert (Hsome : some_not_removed ms = negb (not_removed_count ms =? 0)).
  { unfold some_not_removed, not_removed_count. clear.
    induction ms as [|m ms IH]; [reflexivity|].
    cbn. destruct (negb (reports_removed m)); [reflexivity | exact IH]. }
  rewrite Hsome. split.
  - apply (f_equal (@length _)) in Hcls. rewrite length_map in Hcls.
    exact Hcls.
  - split; intros Hn.
    + rewrite Hn. reflexivity.
    + destruct (not_removed_count ms); [lia | reflexivity].
Qed.

Lemma manager_reports_block (p : ProjectPlugin) (ms : list Manager) :
  manager_reports (plugin_block p ms) = ms.
Proof.
  unfold plugin_block, removal_events.
  cbn [backend_order map app manager_reports].
  induction ms as [|m ms IH]; [reflexivity|].
  cbn. rewrite IH. reflexivity.
Qed.

Lemma count_statuses_block (p : ProjectPlugin) (ms : list Manager) :
  count_where is_plugin_status (plugin_block p ms) = 1 /\
  count_where is_manager_status (plugin_block p ms) = length ms.
Proof.
  unfold count_where, plugin_block, removal_events.
  cbn [backend_order map app filter is_plugin_status is_manager_status length].
  split; [f_equal|]; induction ms as [|m ms IH]; cbn; congruence.
Qed.

Lemma managers_of_length (p : ProjectPlugin) (ms : list Manager) :
  managers_of self_project p ms -> length ms = 4.
Proof.
  intros (Hcls & _). apply (f_equal (@length _)) in Hcls.
  rewrite length_map in Hcls. exact Hcls.
Qed.

(** *** Faults in the batch *)

Lemma plugin_step_shift (p : ProjectPlugin) (r d : Z) (w : World) :
  plugin_step construct_effect remove_effect self_project plugin_status_cb
    removal_manager_status_cb p (r + d) w =
  match plugin_step construct_effect remove_effect self_project plugin_status_cb
          removal_manager_status_cb p r w with
  | (w', tr, res) => (w', tr, shift d res)
  end.
Proof.
  unfold plugin_step, Eff.bind, Eff.emit, Eff.call, Eff.ret.
  destruct (plugin_status_cb p w) as [w1 [[]|e]]; [|reflexivity].
  destruct (remove_plugin construct_effect remove_effect self_project p w1)
    as [[w2 t2] [ms|e]]; [|reflexivity].
  destruct (status_loop removal_manager_status_cb ms false w2)
    as [[w3 t3] [[|]|e]]; cbn; try reflexivity.
  replace (r + d - 1)%Z with (r - 1 + d)%Z by lia. reflexivity.
Qed.

Lemma loop_over_shift (plugins : list ProjectPlugin) (r d : Z) (w : World) :
  loop_over construct_effect remove_effect self_project plugin_status_cb
    removal_manager_status_cb plugins (r + d) w =
  match loop_over construct_effect remove_effect self_project plugin_status_cb
          removal_manager_status_cb plugins r w with
  | (w', tr, res) => (w', tr, shift d res)
  end.
Proof.
  revert r w. induction plugins as [|p ps IH]; intros r w; [reflexivity|].
  cbn [loop_over]. unfold Eff.bind.
  rewrite plugin_step_shift.
  destruct (plugin_step _ _ _ _ _ p r w) as [[w1 t1] [r1|e]]; cbn [shift];
    [|reflexivity].
  rewrite IH.
  destruct (loop_over _ _ _ _ _ ps r1 w1) as [[w2 t2] res]. reflexivity.
Qed.

Lemma loop_over_app (pre rest : list ProjectPlugin) (r r1 : Z)
  (w w1 : World) (tr1 : Trace) :
  loop_over construct_effect remove_effect self_project plugin_status_cb
    removal_manager_status_cb pre r w = (w1, tr1, Return r1) ->
  loop_over construct_effect remove_effect self_project plugin_status_cb
    removal_manager_status_cb (pre ++ rest) r w =
  match loop_over construct_effect remove_effect self_project plugin_status_cb
          removal_manager_status_cb rest r1 w1 with
  | (w2, tr2, res) => (w2, tr1 ++ tr2, res)
  end.
Proof.
  revert r w tr1. induction pre as [|p pre IH]; intros r w tr1 H.
  - apply ret_inv in H. destruct H as (-> & -> & Hr). inversion Hr; subst.
    cbn [app]. destruct (loop_over _ _ _ _ _ rest _ _) as [[w2 tr2] res].
    reflexivity.
  - cbn [loop_over] in H. step_return H.
    cbn [app loop_over]. unfold Eff.bind at 1. rewrite Hm.
    rewrite (IH _ _ _ Hk).
    destruct (loop_over _ _ _ _ _ rest r1 w1) as [[w2 tr2] res].
    rewrite app_assoc. reflexivity.
Qed.


(** *** The trace of any run, faulting or not *)

Lemma status_loop_trace (ms : list Manager) (any : bool) (w w' : World)
  (tr : Trace) (res : Result Exn bool) :
  status_loop removal_manager_status_cb ms any w = (w', tr, res) ->
  exists j, tr = map ManagerStatus (firstn j ms).
Proof.
  revert any w w' tr res.
  induction ms as [|m ms IH]; intros any w w' tr res H.
  - apply ret_inv in H. destruct H as (_ & -> & _). exists 0. reflexivity.
  - cbn [status_loop] in H. unfold Eff.bind, Eff.emit, Eff.call in H.
    destruct (removal_manager_status_cb m w) as [w1 [[]|e]].
    + destruct (status_loop removal_manager_status_cb ms _ w1)
        as [[w2 t2] res2] eqn:Hrest.
      apply IH in Hrest. destruct Hrest as (j & ->).
      exists (S j). inversion H; subst. reflexivity.
    + inversion H; subst. exists 1. reflexivity.
Qed.

Lemma announced_app (t1 t2 : Trace) :
  announced (t1 ++ t2) = announced t1 ++ announced t2.
Proof.
  induction t1 as [|ev t1 IH]; [reflexivity|].
  destruct ev; cbn; rewrite IH; reflexivity.
Qed.

Lemma announced_statuses (ms : list Manager) :
  announced (map ManagerStatus ms) = [].
Proof. induction ms as [|m ms IH]; [reflexivity | exact IH]. Qed.

Lemma announced_block (p : ProjectPlugin) (ms : list Manager) :
  announced (plugin_block p ms) = [p].
Proof.
  unfold plugin_block, removal_events.
  cbn [backend_order map app announced].
  rewrite announced_statuses. reflexivity.
Qed.

(** Whatever the outcome of an iteration, its events are an initial part of
    the block of a plugin, and they start with the plugin's announcement. *)
Lemma plugin_step_trace (p : ProjectPlugin) (r : Z) (w w' : World)
  (tr : Trace) (res : Result Exn Z) :
  plugin_step construct_effect remove_effect self_project plugin_status_cb
    removal_manager_status_cb p r w = (w', tr, res) ->
  (exists ms suffix, tr ++ suffix = plugin_block p ms) /\
  announced tr = [p].
Proof.
  intros H.
  assert (Hpre : exists ms suffix tr',
             tr ++ suffix = plugin_block p ms /\ tr = PluginStatus p :: tr').
  { unfold plugin_step, Eff.bind, Eff.emit, Eff.call, Eff.ret in H.
    destruct (plugin_status_cb p w) as [w1 [[]|e]].
    - destruct (remove_plugin construct_effect remove_effect self_project
                  p w1) as [[w2 t2] [ms|e]] eqn:Hrm.
      + apply remove_plugin_returns in Hrm. destruct Hrm as (-> & _).
        destruct (status_loop removal_manager_status_cb ms false w2)
          as [[w3 t3] res3] eqn:Hsl.
        apply status_loop_trace in Hsl. destruct Hsl as (j & ->).
        exists ms, (map ManagerStatus (skipn j ms)).
        assert (Htr : tr = PluginStatus p :: removal_events p ++
                           map ManagerStatus (firstn j ms)).
        { destruct res3; inversion H; subst; cbn; rewrite ?app_nil_r;
            reflexivity. }
        eexists. split; [|exact Htr].
        rewrite Htr. unfold plugin_block. cbn [app].
        rewrite <- app_assoc, <- map_app, firstn_skipn. reflexivity.
      + apply remove_plugin_trace in Hrm. destruct Hrm as (suffix & Hsuf).
        inversion H; subst.
        exists [], suffix. eexists. split; [|reflexivity].
        unfold plugin_block. cbn [app map].
        rewrite app_nil_r, Hsuf. reflexivity.
    - inversion H; subst. exists [], (removal_events p). eexists.
      split; [|reflexivity].
      unfold plugin_block. rewrite app_nil_r. reflexivity. }
  destruct Hpre as (ms & suffix & tr' & Heq & ->).
  split; [exists ms, suffix; exact Heq|].
  apply (f_equal (@announced _ _)) in Heq.
  rewrite announced_app, announced_block in Heq. cbn in Heq.
  injection Heq as Heq. apply app_eq_nil in Heq. destruct Heq as (Heq & _).
  cbn [announced]. rewrite Heq. reflexivity.
Qed.

Lemma loop_over_trace (plugins : list ProjectPlugin) (r : Z)
  (w w' : World) (tr : Trace) (res : Result Exn Z) :
  loop_over construct_effect remove_effect self_project plugin_status_cb
    removal_manager_status_cb plugins r w = (w', tr, res) ->
  exists mss suffix,
    length mss = length plugins /\ tr ++ suffix = batch_trace plugins mss.
Proof.
  revert r w w' tr res.
  induction plugins as [|p ps IH]; intros r w w' tr res H.
  - apply ret_inv in H. destruct H as (_ & -> & _). exists [], []. auto.
  - cbn [loop_over] in H. unfold Eff.bind in H.
    destruct (plugin_step _ _ _ _ _ p r w) as [[w1 t1] [r1|e]] eqn:Hstep.
    + destruct (loop_over _ _ _ _ _ ps r1 w1) as [[w2 t2] res2] eqn:Hloop.
      inversion H; subst.
      apply IH in Hloop. destruct Hloop as (mss & suffix & Hlen & Heq).
      apply plugin_step_returns in Hstep.
      destruct Hstep as (ms & _ & -> & _).
      exists (ms :: mss), suffix. cbn [length batch_trace].
      rewrite <- app_assoc, Heq, Hlen. auto.
    + inversion H; subst.
      apply plugin_step_trace in Hstep.
      destruct Hstep as ((ms & suffix & Heq) & _).
      exists (ms :: repeat [] (length ps)),
             (suffix ++ batch_trace ps (repeat [] (length ps))).
      cbn [length batch_trace]. rewrite repeat_length, app_assoc, Heq. auto.
Qed.

Lemma remove_plugins_trace (plugins : list ProjectPlugin) (w w' : World)
  (tr : Trace) (res : Result Exn (Z * Z)) :
  remove_plugins_over construct_effect remove_effect self_project plugin_status_cb
    removal_manager_status_cb plugins w = (w', tr, res) ->
  exists mss suffix,
    length mss = length plugins /\ tr ++ suffix = batch_trace plugins mss /\
    match res with
    | Return _ => suffix = [] /\ Forall2 (managers_of self_project) plugins mss
    | Raise _ => True
    end.
Proof.
  destruct res as [[removed attempted]|e]; intros H.
  - apply remove_plugins_returns in H. destruct H as (mss & HF & -> & _).
    exists mss, []. rewrite app_nil_r.
    repeat split; [symmetry; eapply Forall2_length; eassumption | assumption].
  - unfold remove_plugins_over, Eff.bind in H.
    destruct (loop_over _ _ _ _ _ plugins _ w) as [[w1 t1] [r1|e1]] eqn:Hloop;
      inversion H; subst.
    apply loop_over_trace in Hloop.
    destruct Hloop as (mss & suffix & Hlen & Heq).
    exists mss, suffix. auto.
Qed.


Lemma remove_plugins_over_app_raises (pre rest : list ProjectPlugin)
  (w w1 w2 : World) (tr1 tr2 : Trace) (counts : Z * Z) (e : Exn) :
  remove_plugins_over construct_effect remove_effect self_project
    plugin_status_cb removal_manager_status_cb pre w =
    (w1, tr1, Return counts) ->
  (forall r,
     loop_over construct_effect remove_effect self_project plugin_status_cb
       removal_manager_status_cb rest r w1 = (w2, tr2, Raise e)) ->
  remove_plugins_over construct_effect remove_effect self_project
    plugin_status_cb removal_manager_status_cb (pre ++ rest) w =
    (w2, tr1 ++ tr2, Raise e).
Proof.
  intros Hpre Hrest. unfold remove_plugins_over in Hpre. step_return Hpre.
  apply ret_inv in Hk. destruct Hk as (-> & -> & _).
  unfold remove_plugins_over.
  replace (Z.of_nat (length (pre ++ rest)))
    with (Z.of_nat (length pre) + Z.of_nat (length rest))%Z
    by (rewrite length_app; lia).
  unfold Eff.bind. rewrite loop_over_shift.
  erewrite loop_over_app; [|exact Hm].
  rewrite Hrest. cbn [shift]. rewrite app_nil_r. reflexivity.
Qed.

(** *** Where the manager callbacks sit in a block *)

Lemma statuses_split (pre : Trace) (ms : list Manager) (l1 l2 : Trace)
  (m : Manager) :
  forallb (fun ev => negb (is_manager_status ev)) pre = true ->
  pre ++ map ManagerStatus ms = l1 ++ ManagerStatus m :: l2 ->
  exists ms1 ms2,
    l1 = pre ++ map ManagerStatus ms1 /\ l2 = map ManagerStatus ms2 /\
    ms = ms1 ++ m :: ms2.
Proof.
  revert l1. induction pre as [|ev pre IH]; intros l1 Hpre H.
  - clear Hpre. cbn [app] in *. revert l1 H.
    induction ms as [|m0 ms IHms]; intros l1 H.
    + destruct l1; discriminate.
    + destruct l1 as [|ev l1]; cbn in H; inversion H; subst.
      * exists [], ms. auto.
      * destruct (IHms _ H2) as (ms1 & ms2 & -> & -> & ->).
        exists (m0 :: ms1), ms2. auto.
  - cbn in Hpre. apply andb_true_iff in Hpre. destruct Hpre as (Hev & Hpre).
    destruct l1 as [|ev' l1]; cbn in H; inversion H; subst.
    + discriminate.
    + destruct (IH _ Hpre H2) as (ms1 & ms2 & -> & -> & ->).
      exists ms1, ms2. auto.
Qed.

Lemma filter_remove_statuses (ms : list Manager) :
  filter is_remove (map ManagerStatus ms) = [].
Proof. induction ms as [|m ms IH]; [reflexivity | exact IH]. Qed.

Lemma block_status_after_removes (p : ProjectPlugin) (ms : list Manager)
  (l1 l2 : Trace) (m : Manager) :
  plugin_block p ms = l1 ++ ManagerStatus m :: l2 ->
  filter is_remove l1 = map (fun c => Remove c p) backend_order /\
  filter is_remove l2 = [].
Proof.
  intros H. unfold plugin_block in H.
  change (PluginStatus p :: removal_events p ++ map ManagerStatus ms)
    with ((PluginStatus p :: removal_events p) ++ map ManagerStatus ms) in H.
  apply statuses_split in H; [|reflexivity].
  destruct H as (ms1 & ms2 & -> & -> & _).
  rewrite filter_app, !filter_remove_statuses, app_nil_r. auto.
Qed.

Lemma count_plugin_status_batch (plugins : list ProjectPlugin)
  (mss : list (list Manager)) :
  length plugins = length mss ->
  count_where is_plugin_status (batch_trace plugins mss) = length plugins.
Proof.
  revert mss. induction plugins as [|p ps IH]; intros [|ms mss] Hlen;
    try discriminate; [reflexivity|].
  injection Hlen as Hlen. cbn [batch_trace length].
  unfold count_where in *. rewrite filter_app, length_app, (IH _ Hlen).
  destruct (count_statuses_block p ms) as (Hps & _).
  unfold count_where in Hps. rewrite Hps. reflexivity.
Qed.

Lemma batch_trace_block (plugins : list ProjectPlugin)
  (mss : list (list Manager)) (p : ProjectPlugin) :
  Forall2 (managers_of self_project) plugins mss ->
  In p plugins ->
  exists A B ms,
    batch_trace plugins mss = A ++ plugin_block p ms ++ B /\
    managers_of self_project p ms.
Proof.
  intros HF. induction HF as [|q ms ps mss Hms HF IH]; intros Hin.
  - destruct Hin.
  - destruct Hin as [-> | Hin].
    + exists [], (batch_trace ps mss), ms. auto.
    + destruct (IH Hin) as (A & B & ms' & Heq & Hms').
      exists (plugin_block q ms ++ A), B, ms'.
      cbn [batch_trace]. rewrite Heq, <- app_assoc. auto.
Qed.

Lemma block_status_before_removal (A B : Trace) (p : ProjectPlugin)
  (ms : list Manager) :
  status_before_removal (A ++ plugin_block p ms ++ B) p.
Proof.
  exists A, (removal_events p ++ map ManagerStatus ms ++ B), DbRemoveManager.
  split.
  - unfold plugin_block. cbn [app]. rewrite <- app_assoc. reflexivity.
  - apply in_or_app. left. cbn. auto 10.
Qed.

Lemma block_status_after_each_attempt (A B : Trace) (p : ProjectPlugin)
  (ms : list Manager) :
  managers_of self_project p ms ->
  status_after_each_attempt (A ++ plugin_block p ms ++ B) p.
Proof.
  intros (Hcls & Hall) c Hc.
  destruct ms as [|m1 [|m2 [|m3 [|m4 [|m5 ms]]]]]; try discriminate.
  unfold backend_order in Hcls. cbn [map] in Hcls.
  injection Hcls as H1 H2 H3 H4.
  inversion Hall as [|? ? (P1 & _) Hall1]; subst.
  inversion Hall1 as [|? ? (P2 & _) Hall2]; subst.
  inversion Hall2 as [|? ? (P3 & _) Hall3]; subst.
  inversion Hall3 as [|? ? (P4 & _) _]; subst.
  unfold plugin_block, removal_events. cbn [backend_order map app].
  cbn in Hc.
  destruct Hc as [<- | [<- | [<- | [<- | []]]]].
  - exists (A ++ [PluginStatus (plugin m1);
                  Construct DbRemoveManager (plugin m1);
                  Construct MeltanoYmlRemoveManager (plugin m1);
                  Construct InstallationRemoveManager (plugin m1);
                  Construct LockedDefinitionRemoveManager (plugin m1)]).
    eexists. exists m1. rewrite <- app_assoc. cbn [app].
    split; [reflexivity|]. split; [cbn; auto 10 | auto].
  - exists (A ++ [PluginStatus (plugin m1);
                  Construct DbRemoveManager (plugin m1);
                  Construct MeltanoYmlRemoveManager (plugin m1);
                  Construct InstallationRemoveManager (plugin m1);
                  Construct LockedDefinitionRemoveManager (plugin m1);
                  Remove DbRemoveManager (plugin m1)]).
    eexists. exists m2. rewrite <- app_assoc. cbn [app].
    split; [reflexivity|]. split; [cbn; auto 10 | auto].
  - exists (A ++ [PluginStatus (plugin m1);
                  Construct DbRemoveManager (plugin m1);
                  Construct MeltanoYmlRemoveManager (plugin m1);
                  Construct InstallationRemoveManager (plugin m1);
                  Construct LockedDefinitionRemoveManager (plugin m1);
                  Remove DbRemoveManager (plugin m1);
                  Remove MeltanoYmlRemoveManager (plugin m1)]).
    eexists. exists m3. rewrite <- app_assoc. cbn [app].
    split; [reflexivity|]. split; [cbn; auto 10 | auto].
  - exists (A ++ [PluginStatus (plugin m1);
                  Construct DbRemoveManager (plugin m1);
                  Construct MeltanoYmlRemoveManager (plugin m1);
                  Construct InstallationRemoveManager (plugin m1);
                  Construct LockedDefinitionRemoveManager (plugin m1);
                  Remove DbRemoveManager (plugin m1);
                  Remove MeltanoYmlRemoveManager (plugin m1);
                  Remove InstallationRemoveManager (plugin m1)]).
    eexists. exists m4. rewrite <- app_assoc. cbn [app].
    split; [reflexivity|]. split; [cbn; auto 10 | auto].
Qed.

(** *** The calls behind a completed run *)

Lemma status_loop_reported (ms : list Manager) (any any' : bool)
  (w w' : World) (tr : Trace) :
  status_loop removal_manager_status_cb ms any w = (w', tr, Return any') ->
  reported removal_manager_status_cb ms w w'.
Proof.
  revert any w tr. induction ms as [|m ms IH]; intros any w tr H.
  - apply ret_inv in H. destruct H as (-> & _). constructor.
  - cbn [status_loop] in H. unfold Eff.bind, Eff.emit, Eff.call in H.
    destruct (removal_manager_status_cb m w) as [w1 [[]|e]] eqn:Hcb;
      [|discriminate].
    destruct (status_loop removal_manager_status_cb ms _ w1)
      as [[w2 t2] [b|e]] eqn:Hrest; inversion H; subst.
    econstructor; [exact Hcb|]. eapply IH. exact Hrest.
Qed.

Lemma loop_over_processed (plugins : list ProjectPlugin) (r r' : Z)
  (w w' : World) (tr : Trace) :
  loop_over construct_effect remove_effect self_project plugin_status_cb
    removal_manager_status_cb plugins r w = (w', tr, Return r') ->
  exists mss,
    processed construct_effect remove_effect self_project plugin_status_cb
      removal_manager_status_cb plugins mss w w' /\
    tr = batch_trace plugins mss.
Proof.
  revert r w tr. induction plugins as [|p ps IH]; intros r w tr H.
  - apply ret_inv in H. destruct H as (-> & -> & _).
    exists []. split; [constructor | reflexivity].
  - cbn [loop_over] in H. unfold Eff.bind in H.
    destruct (plugin_step _ _ _ _ _ p r w) as [[w3 t1] [r1|e]] eqn:Hstep;
      [|discriminate].
    destruct (loop_over _ _ _ _ _ ps r1 w3) as [[w4 t2] res] eqn:Hrest.
    inversion H; subst. apply IH in Hrest. destruct Hrest as (mss & Hp & ->).
    unfold plugin_step, Eff.bind, Eff.emit, Eff.call, Eff.ret in Hstep.
    destruct (plugin_status_cb p w) as [w1 [[]|e]] eqn:Hcb; [|discriminate].
    destruct (remove_plugin construct_effect remove_effect self_project p w1)
      as [[w2 tr2] [ms|e]] eqn:Hrm; [|discriminate].
    destruct (status_loop removal_manager_status_cb ms false w2)
      as [[w5 t5] [any|e]] eqn:Hst; inversion Hstep; subst.
    pose proof (status_loop_reported _ _ _ Hst) as Hrep.
    apply status_loop_returns in Hst. destruct Hst as (-> & _).
    pose proof (remove_plugin_returns _ _ Hrm) as (Htr2 & _).
    exists (ms :: mss). split.
    + econstructor; eassumption.
    + cbn [batch_trace]. unfold plugin_block. rewrite Htr2. cbn [app].
      rewrite !app_nil_r. reflexivity.
Qed.

(** *** The loop on the sequence where it lives *)

Lemma plugins_loop_mono (fuel fuel' : nat)
  (plugins : PluginSequence ProjectPlugin World) (i : nat) (r : Z)
  (w : World) (x : World * Trace * Result Exn Z) :
  fuel <= fuel' ->
  plugins_loop construct_effect remove_effect self_project plugin_status_cb
    removal_manager_status_cb fuel plugins i r w = Some x ->
  plugins_loop construct_effect remove_effect self_project plugin_status_cb
    removal_manager_status_cb fuel' plugins i r w = Some x.
Proof.
  revert fuel' i r w x.
  induction fuel as [|fuel IH]; intros fuel' i r w x Hle H; [discriminate|].
  destruct fuel' as [|fuel']; [lia|].
  cbn [plugins_loop] in *.
  destruct (nth_error (plugins w) i) as [p|]; [|exact H].
  destruct (plugin_step _ _ _ _ _ p r w) as [[w1 t1] [r1|e]]; [|exact H].
  destruct (plugins_loop _ _ _ _ _ fuel plugins (S i) r1 w1)
    as [y|] eqn:Hrest; [|discriminate].
  rewrite (IH fuel' _ _ _ _ ltac:(lia) Hrest). exact H.
Qed.

(** Every finished run of the loop is the run of the iterations for the
    plugins it announced. *)
Lemma plugins_loop_is_over (fuel : nat)
  (plugins : PluginSequence ProjectPlugin World) (i : nat) (r : Z)
  (w w' : World) (tr : Trace) (res : Result Exn Z) :
  plugins_loop construct_effect remove_effect self_project plugin_status_cb
    removal_manager_status_cb fuel plugins i r w = Some (w', tr, res) ->
  loop_over construct_effect remove_effect self_project plugin_status_cb
    removal_manager_status_cb (announced tr) r w = (w', tr, res).
Proof.
  revert i r w w' tr res.
  induction fuel as [|fuel IH]; intros i r w w' tr res H; [discriminate|].
  cbn [plugins_loop] in H.
  destruct (nth_error (plugins w) i) as [p|].
  - destruct (plugin_step _ _ _ _ _ p r w) as [[w1 t1] [r1|e]] eqn:Hstep.
    + destruct (plugins_loop _ _ _ _ _ fuel plugins (S i) r1 w1)
        as [[[w2 t2] res2]|] eqn:Hrest; [|discriminate].
      inversion H; subst. apply IH in Hrest.
      pose proof (plugin_step_trace _ _ _ Hstep) as (_ & Hann).
      rewrite announced_app, Hann. cbn [app loop_over].
      unfold Eff.bind. rewrite Hstep, Hrest. reflexivity.
    + inversion H; subst.
      pose proof (plugin_step_trace _ _ _ Hstep) as (_ & Hann).
      rewrite Hann. cbn [loop_over]. unfold Eff.bind. rewrite Hstep.
      reflexivity.
  - inversion H; subst. reflexivity.
Qed.

(** The plugins a run over a list announced are the first plugins of the
    list, and all of them when the run returned. *)
Lemma loop_over_announced (plugins : list ProjectPlugin) (r : Z)
  (w w' : World) (tr : Trace) (res : Result Exn Z) :
  loop_over construct_effect remove_effect self_project plugin_status_cb
    removal_manager_status_cb plugins r w = (w', tr, res) ->
  exists rest,
    plugins = announced tr ++ rest /\
    (forall r', res = Return r' -> rest = []).
Proof.
  revert r w tr. induction plugins as [|p ps IH]; intros r w tr H.
  - apply ret_inv in H. destruct H as (_ & -> & _). exists []. auto.
  - cbn [loop_over] in H. unfold Eff.bind in H.
    destruct (plugin_step _ _ _ _ _ p r w) as [[w1 t1] [r1|e]] eqn:Hstep.
    + destruct (loop_over _ _ _ _ _ ps r1 w1) as [[w2 t2] res2] eqn:Hrest.
      inversion H; subst. apply IH in Hrest.
      destruct Hrest as (rest & Hps & Hret).
      pose proof (plugin_step_trace _ _ _ Hstep) as (_ & Hann).
      exists rest. rewrite announced_app, Hann. cbn [app].
      split; [f_equal; exact Hps | exact Hret].
    + inversion H; subst.
      pose proof (plugin_step_trace _ _ _ Hstep) as (_ & Hann).
      exists ps. rewrite Hann. split; [reflexivity | discriminate].
Qed.

(** *** A sequence nobody touches *)

Section Untouched.

Variable plugins : PluginSequence ProjectPlugin World.

Hypothesis untouched :
  sequence_untouched construct_effect remove_effect plugin_status_cb
    removal_manager_status_cb plugins.

Lemma remove_each_keeps (ms : list Manager) (w w' : World) (tr : Trace)
  (res : Result Exn (list Manager)) :
  remove_each remove_effect ms w = (w', tr, res) -> plugins w' = plugins w.
Proof.
  destruct untouched as (_ & _ & _ & HR).
  revert w w' tr res. induction ms as [|m ms IH]; intros w w' tr res H.
  - apply ret_inv in H. destruct H as (-> & _). reflexivity.
  - cbn [remove_each] in H.
    unfold remove, Eff.bind, Eff.emit, Eff.call, Eff.ret in H.
    pose proof (HR (manager_class m) (plugin m) (project m) w) as Hk.
    destruct (remove_effect _ _ _ w) as [w1 [b|e]]; cbn in Hk.
    + destruct (remove_each remove_effect ms w1) as [[w2 t2] res2] eqn:Hrest.
      apply IH in Hrest.
      destruct res2; inversion H; subst; congruence.
    + inversion H; subst. exact Hk.
Qed.

Lemma new_manager_keeps (c : ManagerClass) (p : ProjectPlugin)
  (w w' : World) (tr : Trace) (res : Result Exn Manager) :
  new_manager construct_effect self_project c p w = (w', tr, res) ->
  plugins w' = plugins w.
Proof.
  destruct untouched as (_ & _ & HC & _).
  unfold new_manager, Eff.bind, Eff.emit, Eff.call, Eff.ret.
  pose proof (HC c p self_project w) as Hk.
  destruct (construct_effect c p self_project w) as [w1 [[]|e]]; cbn in Hk;
    intros H; inversion H; subst; exact Hk.
Qed.

Lemma construct_managers_keeps (p : ProjectPlugin) (w w' : World)
  (tr : Trace) (res : Result Exn (list Manager)) :
  construct_managers construct_effect self_project p w = (w', tr, res) ->
  plugins w' = plugins w.
Proof.
  unfold construct_managers, Eff.bind. intros H.
  destruct (new_manager construct_effect self_project DbRemoveManager p w)
    as [[v1 t1] [m1|e]] eqn:H1;
    [|inversion H; subst; eapply new_manager_keeps; exact H1].
  destruct (new_manager construct_effect self_project
              MeltanoYmlRemoveManager p v1)
    as [[v2 t2] [m2|e]] eqn:H2;
    [|inversion H; subst;
      rewrite (new_manager_keeps _ _ _ H2);
      eapply new_manager_keeps; exact H1].
  destruct (new_manager construct_effect self_project
              InstallationRemoveManager p v2)
    as [[v3 t3] [m3|e]] eqn:H3;
    [|inversion H; subst;
      rewrite (new_manager_keeps _ _ _ H3), (new_manager_keeps _ _ _ H2);
      eapply new_manager_keeps; exact H1].
  destruct (new_manager construct_effect self_project
              LockedDefinitionRemoveManager p v3)
    as [[v4 t4] [m4|e]] eqn:H4; cbn in H; inversion H; subst;
    rewrite (new_manager_keeps _ _ _ H4), (new_manager_keeps _ _ _ H3),
      (new_manager_keeps _ _ _ H2);
    eapply new_manager_keeps; exact H1.
Qed.

Lemma remove_plugin_keeps (p : ProjectPlugin) (w w' : World) (tr : Trace)
  (res : Result Exn (list Manager)) :
  remove_plugin construct_effect remove_effect self_project p w =
    (w', tr, res) ->
  plugins w' = plugins w.
Proof.
  unfold remove_plugin, Eff.bind. intros H.
  destruct (construct_managers construct_effect self_project p w)
    as [[w1 t1] [ms0|e]] eqn:Hc.
  - destruct (remove_each remove_effect ms0 w1) as [[w2 t2] res2] eqn:He.
    inversion H; subst.
    rewrite (remove_each_keeps _ _ He).
    eapply construct_managers_keeps. exact Hc.
  - inversion H; subst. eapply construct_managers_keeps. exact Hc.
Qed.

Lemma status_loop_keeps (ms : list Manager) (any : bool) (w w' : World)
  (tr : Trace) (res : Result Exn bool) :
  status_loop removal_manager_status_cb ms any w = (w', tr, res) ->
  plugins w' = plugins w.
Proof.
  destruct untouched as (_ & HM & _ & _).
  revert any w w' tr res.
  induction ms as [|m ms IH]; intros any w w' tr res H.
  - apply ret_inv in H. destruct H as (-> & _). reflexivity.
  - cbn [status_loop] in H. unfold Eff.bind, Eff.emit, Eff.call in H.
    pose proof (HM m w) as Hk.
    destruct (removal_manager_status_cb m w) as [w1 [[]|e]]; cbn in Hk.
    + destruct (status_loop removal_manager_status_cb ms _ w1)
        as [[w2 t2] res2] eqn:Hrest.
      apply IH in Hrest. inversion H; subst. congruence.
    + inversion H; subst. exact Hk.
Qed.

Lemma plugin_step_keeps (p : ProjectPlugin) (r : Z) (w w' : World)
  (tr : Trace) (res : Result Exn Z) :
  plugin_step construct_effect remove_effect self_project plugin_status_cb
    removal_manager_status_cb p r w = (w', tr, res) ->
  plugins w' = plugins w.
Proof.
  pose proof untouched as (HP & _).
  unfold plugin_step, Eff.bind, Eff.emit, Eff.call, Eff.ret. intros H.
  pose proof (HP p w) as Hk.
  destruct (plugin_status_cb p w) as [w1 [[]|e]]; cbn in Hk.
  - destruct (remove_plugin construct_effect remove_effect self_project p w1)
      as [[w2 t2] [ms|e]] eqn:Hrm.
    + destruct (status_loop removal_manager_status_cb ms false w2)
        as [[w3 t3] res3] eqn:Hst.
      apply remove_plugin_keeps in Hrm. apply status_loop_keeps in Hst.
      destruct res3; inversion H; subst; congruence.
    + apply remove_plugin_keeps in Hrm. inversion H; subst. congruence.
  - inversion H; subst. exact Hk.
Qed.

Lemma nth_error_skipn_cons (l : list ProjectPlugin) (i : nat)
  (p : ProjectPlugin) :
  nth_error l i = Some p -> skipn i l = p :: skipn (S i) l.
Proof.
  revert i. induction l as [|q l IH]; intros [|i] H; try discriminate.
  - cbn in H. injection H as ->. reflexivity.
  - cbn in H. cbn [skipn]. rewrite (IH _ H). reflexivity.
Qed.

(** With enough fuel, the loop on an untouched sequence is the run of the
    iterations for the plugins the sequence holds from the index on. *)
Lemma plugins_loop_untouched (fuel i : nat) (r : Z) (w : World) :
  length (plugins w) - i < fuel ->
  plugins_loop construct_effect remove_effect self_project plugin_status_cb
    removal_manager_status_cb fuel plugins i r w =
  Some (loop_over construct_effect remove_effect self_project
          plugin_status_cb removal_manager_status_cb
          (skipn i (plugins w)) r w).
Proof.
  revert i r w. induction fuel as [|fuel IH]; intros i r w Hfuel; [lia|].
  cbn [plugins_loop].
  destruct (nth_error (plugins w) i) as [p|] eqn:Hn.
  - rewrite (nth_error_skipn_cons _ _ Hn). cbn [loop_over]. unfold Eff.bind.
    destruct (plugin_step _ _ _ _ _ p r w) as [[w1 t1] [r1|e]] eqn:Hstep;
      [|reflexivity].
    pose proof (plugin_step_keeps _ _ _ Hstep) as Hkeep.
    assert (Hi : i < length (plugins w))
      by (apply nth_error_Some; rewrite Hn; discriminate).
    rewrite IH by (rewrite Hkeep; lia).
    rewrite Hkeep.
    destruct (loop_over _ _ _ _ _ (skipn (S i) (plugins w)) r1 w1)
      as [[w2 t2] res]. reflexivity.
  - apply nth_error_None in Hn. rewrite skipn_all2 by exact Hn. reflexivity.
Qed.

Lemma remove_plugins_untouched (fuel : nat) (w : World) :
  length (plugins w) < fuel ->
  remove_plugins construct_effect remove_effect self_project plugin_status_cb
    removal_manager_status_cb fuel plugins w =
  Some (remove_plugins_over construct_effect remove_effect self_project
          plugin_status_cb removal_manager_status_cb (plugins w) w).
Proof.
  intros Hfuel. unfold remove_plugins.
  rewrite plugins_loop_untouched by lia. cbn [skipn].
  unfold remove_plugins_over, Eff.bind, Eff.ret.
  destruct (loop_over _ _ _ _ _ (plugins w) _ w) as [[w' tr] [r|e]];
    rewrite ?app_nil_r; reflexivity.
Qed.

Lemma remove_plugins_mono (fuel fuel' : nat)
  (seq : PluginSequence ProjectPlugin World) (w : World)
  (x : World * Trace * Result Exn (Z * Z)) :
  fuel <= fuel' ->
  remove_plugins construct_effect remove_effect self_project plugin_status_cb
    removal_manager_status_cb fuel seq w = Some x ->
  remove_plugins construct_effect remove_effect self_project plugin_status_cb
    removal_manager_status_cb fuel' seq w = Some x.
Proof.
  intros Hle. unfold remove_plugins.
  destruct (plugins_loop _ _ _ _ _ fuel seq 0 _ w) as [y|] eqn:Hloop;
    [|discriminate].
  rewrite (plugins_loop_mono _ _ _ _ Hle Hloop). auto.
Qed.

Lemma remove_plugins_untouched_inv (fuel : nat) (w : World)
  (x : World * Trace * Result Exn (Z * Z)) :
  remove_plugins construct_effect remove_effect self_project plugin_status_cb
    removal_manager_status_cb fuel plugins w = Some x ->
  x = remove_plugins_over construct_effect remove_effect self_project
        plugin_status_cb removal_manager_status_cb (plugins w) w.
Proof.
  intros H.
  apply (remove_plugins_mono
           (fuel' := Nat.max fuel (S (length (plugins w))))) in H; [|lia].
  rewrite remove_plugins_untouched in H by lia.
  injection H as H. symmetry. exact H.
Qed.

End Untouched.

(** Every finished run of [remove_plugins] is the run of the iterations for
    the plugins it announced, started with the length the sequence had at
    the call. *)
Lemma remove_plugins_is_over (fuel : nat)
  (plugins : PluginSequence ProjectPlugin World) (w w' : World) (tr : Trace)
  (res : Result Exn (Z * Z)) :
  remove_plugins construct_effect remove_effect self_project plugin_status_cb
    removal_manager_status_cb fuel plugins w = Some (w', tr, res) ->
  exists lres,
    loop_over construct_effect remove_effect self_project plugin_status_cb
      removal_manager_status_cb (announced tr)
      (Z.of_nat (length (plugins w))) w = (w', tr, lres) /\
    res = match lres with
          | Return r => Return (r, Z.of_nat (length (plugins w)))
          | Raise e => Raise e
          end.
Proof.
  unfold remove_plugins. intros H.
  destruct (plugins_loop _ _ _ _ _ fuel plugins 0 _ w)
    as [[[w1 t1] lres]|] eqn:Hloop; [|discriminate].
  apply plugins_loop_is_over in Hloop.
  exists lres. destruct lres; inversion H; subst; auto.
Qed.

(** What a returning run did, whatever happened to the sequence. *)
Lemma remove_plugins_returns_live (fuel : nat)
  (plugins : PluginSequence ProjectPlugin World) (w w' : World) (tr : Trace)
  (removed attempted : Z) :
  remove_plugins construct_effect remove_effect self_project plugin_status_cb
    removal_manager_status_cb fuel plugins w =
    Some (w', tr, Return (removed, attempted)) ->
  exists mss,
    Forall2 (managers_of self_project) (announced tr) mss /\
    tr = batch_trace (announced tr) mss /\
    reports tr = mss /\
    processed construct_effect remove_effect self_project plugin_status_cb
      removal_manager_status_cb (announced tr) mss w w' /\
    attempted = Z.of_nat (length (plugins w)) /\
    removed = (attempted - Z.of_nat (count_where some_not_removed mss))%Z.
Proof.
  intros H. apply remove_plugins_is_over in H.
  destruct H as ([r|e] & Hloop & Hres); [|discriminate].
  injection Hres as -> ->.
  pose proof (loop_over_processed _ _ _ Hloop) as (mss' & Hproc & Htr').
  apply loop_over_returns in Hloop. destruct Hloop as (mss & HF & Htr & ->).
  assert (Hmss : mss' = mss).
  { pose proof (Forall2_length HF) as Hlen.
    assert (Hlen' : length (announced tr) = length mss').
    { clear - Hproc. induction Hproc; cbn; congruence. }
    rewrite Htr' in Htr at 1.
    apply (f_equal (@reports _ _)) in Htr. unfold reports in Htr.
    rewrite !split_reports_batch in Htr by assumption. exact Htr. }
  subst mss'. exists mss. repeat split; try assumption.
  unfold reports. rewrite Htr at 1.
  rewrite split_reports_batch; [reflexivity|].
  eapply Forall2_length; eassumption.
Qed.

(** *** Calls without a fault *)

Lemma construct_managers_completes (p : ProjectPlugin) (w : World) :
  (forall c w0, In c backend_order ->
     exists w1, construct_effect c p self_project w0 = (w1, Return tt)) ->
  exists w',
    construct_managers construct_effect self_project p w =
      (w', map (fun c => Construct c p) backend_order,
       Return (map (fun c => mkManager c p self_project None) backend_order)).
Proof.
  intros Hok.
  destruct (Hok DbRemoveManager w) as (v1 & H1); [cbn; auto|].
  destruct (Hok MeltanoYmlRemoveManager v1) as (v2 & H2); [cbn; auto|].
  destruct (Hok InstallationRemoveManager v2) as (v3 & H3); [cbn; auto|].
  destruct (Hok LockedDefinitionRemoveManager v3) as (v4 & H4);
    [cbn; auto 6|].
  exists v4.
  unfold construct_managers, new_manager, Eff.bind, Eff.emit, Eff.call,
    Eff.ret.
  rewrite H1, H2, H3, H4. reflexivity.
Qed.

Lemma remove_each_completes (ms : list Manager) (w : World) :
  (forall m w0, In m ms ->
     exists w1 b,
       remove_effect (manager_class m) (plugin m) (project m) w0 =
         (w1, Return b)) ->
  exists w' ms',
    remove_each remove_effect ms w =
      (w', map (fun m => Remove (manager_class m) (plugin m)) ms, Return ms').
Proof.
  revert w. induction ms as [|m ms IH]; intros w Hok.
  - exists w, []. reflexivity.
  - destruct (Hok m w (or_introl eq_refl)) as (w1 & b & Hb).
    destruct (IH w1) as (w2 & ms' & Hrest).
    { intros m0 w0 Hin. apply Hok. right. exact Hin. }
    exists w2. eexists.
    cbn [remove_each]. unfold remove, Eff.bind, Eff.emit, Eff.call, Eff.ret.
    rewrite Hb, Hrest. cbn. rewrite app_nil_r. reflexivity.
Qed.

Lemma remove_plugin_no_fault (p : ProjectPlugin) (w : World) :
  (forall c w0, In c backend_order ->
     exists w1, construct_effect c p self_project w0 = (w1, Return tt)) ->
  (forall c w0, In c backend_order ->
     exists w1 b, remove_effect c p self_project w0 = (w1, Return b)) ->
  exists w' ms,
    remove_plugin construct_effect remove_effect self_project p w =
      (w', removal_events p, Return ms).
Proof.
  intros Hcons Hok.
  destruct (construct_managers_completes w Hcons) as (w1 & Hc).
  destruct (@remove_each_completes
              (map (fun c => mkManager c p self_project None) backend_order)
              w1)
    as (w' & ms & Heach).
  { intros m w0 Hin. apply in_map_iff in Hin.
    destruct Hin as (c & <- & Hc'). cbn. apply Hok. exact Hc'. }
  exists w', ms.
  erewrite remove_plugin_unfold; [|exact Hc].
  rewrite Heach, map_map. reflexivity.
Qed.

(** [remove_plugin] never skips a manager because of the flag an earlier
    one left: when no constructor and no [remove()] for the plugin raises,
    the call returns, with all four [remove()] calls in its trace and a
    tuple of four managers. *)
Theorem remove_plugin_completes (p : ProjectPlugin) (w : World) :
  (forall c w0, In c backend_order ->
     exists w1, construct_effect c p self_project w0 = (w1, Return tt)) ->
  (forall c w0, In c backend_order ->
     exists w1 b, remove_effect c p self_project w0 = (w1, Return b)) ->
  exists w' ms,
    remove_plugin construct_effect remove_effect self_project p w =
      (w', removal_events p, Return ms) /\
    map manager_class ms = backend_order.
Proof.
  intros Hcons Hok.
  destruct (remove_plugin_no_fault w Hcons Hok) as (w' & ms & Hrun).
  exists w', ms. split; [exact Hrun|].
  apply remove_plugin_returns in Hrun. destruct Hrun as (_ & Hcls & _).
  exact Hcls.
Qed.

Lemma status_loop_completes (ms : list Manager) (any : bool) (w : World) :
  (forall m w0, In m ms ->
     exists w1, removal_manager_status_cb m w0 = (w1, Return tt)) ->
  exists w',
    status_loop removal_manager_status_cb ms any w =
      (w', map ManagerStatus ms, Return (some_not_removed ms || any)).
Proof.
  revert any w. induction ms as [|m ms IH]; intros any w Hok.
  - exists w. reflexivity.
  - destruct (Hok m w (or_introl eq_refl)) as (w1 & Hcb).
    destruct (IH (negb (truthy (plugin_removed m)) || any) w1) as (w2 & Hrest).
    { intros m0 w0 Hin. apply Hok. right. exact Hin. }
    exists w2. cbn [status_loop]. unfold Eff.bind, Eff.emit, Eff.call.
    rewrite Hcb, Hrest. cbn. unfold reports_removed.
    rewrite orb_assoc, (orb_comm (some_not_removed ms)). reflexivity.
Qed.

Lemma loop_over_completes (plugins : list ProjectPlugin) (r : Z) (w : World) :
  (forall c p w0, In p plugins ->
     exists w1, construct_effect c p self_project w0 = (w1, Return tt)) ->
  (forall c p w0, In p plugins ->
     exists w1 b, remove_effect c p self_project w0 = (w1, Return b)) ->
  (forall p w0, In p plugins ->
     exists w1, plugin_status_cb p w0 = (w1, Return tt)) ->
  (forall m w0, In (plugin m) plugins ->
     exists w1, removal_manager_status_cb m w0 = (w1, Return tt)) ->
  exists w' tr r',
    loop_over construct_effect remove_effect self_project plugin_status_cb
      removal_manager_status_cb plugins r w = (w', tr, Return r').
Proof.
  revert r w. induction plugins as [|p ps IH]; intros r w Hco Hre HcbP HcbM.
  - exists w, [], r. reflexivity.
  - destruct (HcbP p w (or_introl eq_refl)) as (w1 & Hcb).
    destruct (@remove_plugin_no_fault p w1) as (w2 & ms & Hrm).
    { intros c w0 _. apply Hco. left. reflexivity. }
    { intros c w0 _. apply Hre. left. reflexivity. }
    pose proof Hrm as Hall. apply remove_plugin_returns in Hall.
    destruct Hall as (_ & _ & Hall).
    destruct (@status_loop_completes ms false w2) as (w3 & Hst).
    { intros m w0 Hin. apply HcbM.
      rewrite Forall_forall in Hall. destruct (Hall m Hin) as (-> & _).
      left. reflexivity. }
    destruct (IH (if some_not_removed ms || false then (r - 1)%Z else r) w3
                 (fun c q w0 Hq => Hco c q w0 (or_intror Hq))
                 (fun c q w0 Hq => Hre c q w0 (or_intror Hq))
                 (fun q w0 Hq => HcbP q w0 (or_intror Hq))
                 (fun m w0 Hq => HcbM m w0 (or_intror Hq)))
      as (w4 & tr4 & r4 & Hrest).
    exists w4. eexists. exists r4.
    cbn [loop_over]. unfold plugin_step, Eff.bind, Eff.emit, Eff.call,
      Eff.ret.
    rewrite Hcb, Hrm, Hst, Hrest. reflexivity.
Qed.

(** Nothing but the callbacks, the constructors and the [remove()] methods
    can make [remove_plugins] fail, and only a sequence that changes can
    keep it from ending: when none of them raises for the plugins given
    and none of them changes the sequence, the call returns, with fuel for
    one step more than there are plugins, a pair whose second component is
    the number of plugins. *)
Theorem remove_plugins_completes (fuel : nat)
  (plugins : PluginSequence ProjectPlugin World) (w : World) :
  sequence_untouched construct_effect remove_effect plugin_status_cb
    removal_manager_status_cb plugins ->
  (forall c p w0, In p (plugins w) ->
     exists w1, construct_effect c p self_project w0 = (w1, Return tt)) ->
  (forall c p w0, In p (plugins w) ->
     exists w1 b, remove_effect c p self_project w0 = (w1, Return b)) ->
  (forall p w0, In p (plugins w) ->
     exists w1, plugin_status_cb p w0 = (w1, Return tt)) ->
  (forall m w0, In (plugin m) (plugins w) ->
     exists w1, removal_manager_status_cb m w0 = (w1, Return tt)) ->
  length (plugins w) < fuel ->
  exists w' tr removed,
    remove_plugins construct_effect remove_effect self_project
      plugin_status_cb removal_manager_status_cb fuel plugins w =
      Some (w', tr, Return (removed, Z.of_nat (length (plugins w)))).
Proof.
  intros Hun Hco Hre HcbP HcbM Hfuel.
  erewrite remove_plugins_untouched; [|exact Hun|exact Hfuel].
  destruct (@loop_over_completes (plugins w)
              (Z.of_nat (length (plugins w))) w Hco Hre HcbP HcbM)
    as (w' & tr & r' & Hloop).
  exists w'. eexists. exists r'.
  unfold remove_plugins_over, Eff.bind, Eff.ret. rewrite Hloop. reflexivity.
Qed.

Lemma tuple_untouched (l : list ProjectPlugin) :
  sequence_untouched construct_effect remove_effect plugin_status_cb
    removal_manager_status_cb (fun _ => l).
Proof. repeat split. Qed.

Lemma announced_untouched (fuel : nat)
  (plugins : PluginSequence ProjectPlugin World) (w w' : World) (tr : Trace)
  (counts : Z * Z) :
  sequence_untouched construct_effect remove_effect plugin_status_cb
    removal_manager_status_cb plugins ->
  remove_plugins construct_effect remove_effect self_project plugin_status_cb
    removal_manager_status_cb fuel plugins w = Some (w', tr, Return counts) ->
  announced tr = plugins w.
Proof.
  intros Hun H. eapply remove_plugins_untouched_inv in H; [|exact Hun].
  unfold remove_plugins_over, Eff.bind, Eff.ret in H.
  destruct (loop_over _ _ _ _ _ (plugins w) _ w) as [[w1 t1] [r|e]] eqn:Hloop;
    [|discriminate].
  inversion H; subst. rewrite app_nil_r.
  apply loop_over_announced in Hloop. destruct Hloop as (rest & Hps & Hret).
  rewrite (Hret r eq_refl), app_nil_r in Hps. symmetry. exact Hps.
Qed.

(** *** What the batch returns and reports *)

(** C1, as the code has it.  Take a sequence that nothing running during
    the call changes.  Whenever [remove_plugins] returns
    [(removed, attempted)], [attempted] is the number of plugins given, the
    callbacks have been handed, plugin by plugin in input order, the four
    managers of that plugin, and [removed] is the number of plugins all of
    whose managers report [plugin_removed] true, which is [attempted] minus
    the number of plugins with a manager that reports false.  And it does
    return such a pair, after one step more than there are plugins, when
    no constructor, no [remove()] and no callback raises for the plugins
    given. *)
Theorem remove_plugins_counts (fuel : nat)
  (plugins : PluginSequence ProjectPlugin World) (w : World) :
  sequence_untouched construct_effect remove_effect plugin_status_cb
    removal_manager_status_cb plugins ->
  (forall w' tr removed attempted,
     remove_plugins construct_effect remove_effect self_project
       plugin_status_cb removal_manager_status_cb fuel plugins w =
       Some (w', tr, Return (removed, attempted)) ->
     attempted = Z.of_nat (length (plugins w)) /\
     Forall2 (managers_of self_project) (plugins w) (reports tr) /\
     removed = Z.of_nat (count_where all_removed (reports tr)) /\
     removed =
       (attempted -
        Z.of_nat (count_where some_not_removed (reports tr)))%Z) /\
  ((forall c p w0, In p (plugins w) ->
      exists w1, construct_effect c p self_project w0 = (w1, Return tt)) ->
   (forall c p w0, In p (plugins w) ->
      exists w1 b, remove_effect c p self_project w0 = (w1, Return b)) ->
   (forall p w0, In p (plugins w) ->
      exists w1, plugin_status_cb p w0 = (w1, Return tt)) ->
   (forall m w0, In (plugin m) (plugins w) ->
      exists w1, removal_manager_status_cb m w0 = (w1, Return tt)) ->
   length (plugins w) < fuel ->
   exists w' tr removed,
     remove_plugins construct_effect remove_effect self_project
       plugin_status_cb removal_manager_status_cb fuel plugins w =
       Some (w', tr, Return (removed, Z.of_nat (length (plugins w))))).
Proof.
  intros Hun. split.
  - intros w' tr removed attempted H.
    assert (Hann : announced tr = plugins w)
      by (eapply announced_untouched; eassumption).
    apply remove_plugins_returns_live in H.
    destruct H as (mss & HF & _ & -> & _ & -> & ->).
    rewrite Hann in HF.
    repeat split; try assumption.
    pose proof (count_removed_split mss) as Hc.
    apply Forall2_length in HF. lia.
  - intros Hco Hre HcbP HcbM Hfuel.
    erewrite remove_plugins_untouched; [|exact Hun|exact Hfuel].
    destruct (@loop_over_completes (plugins w)
                (Z.of_nat (length (plugins w))) w Hco Hre HcbP HcbM)
      as (w' & tr & r' & Hloop).
    exists w'. eexists. exists r'.
    unfold remove_plugins_over, Eff.bind, Eff.ret. rewrite Hloop.
    reflexivity.
Qed.


(** C8. When the sequence is empty at the call, [remove_plugins] returns
    [(0, 0)], calls no callback and no manager, and leaves the world as it
    was. *)
Theorem remove_plugins_empty (fuel : nat)
  (plugins : PluginSequence ProjectPlugin World) (w : World) :
  plugins w = [] ->
  remove_plugins construct_effect remove_effect self_project plugin_status_cb
    removal_manager_status_cb (S fuel) plugins w =
    Some (w, [], Return (0%Z, 0%Z)).
Proof.
  intros H. unfold remove_plugins. cbn [plugins_loop]. rewrite H.
  reflexivity.
Qed.

Lemma block_facts (plugins : list ProjectPlugin) (mss : list (list Manager)) :
  Forall2 (managers_of self_project) plugins mss ->
  Forall2 (fun p ms =>
             plugin_block p ms =
               PluginStatus p :: removal_events p ++ map ManagerStatus ms /\
             count_where is_plugin_status (plugin_block p ms) = 1 /\
             count_where is_manager_status (plugin_block p ms) = 4 /\
             manager_reports (plugin_block p ms) = ms /\
             map manager_class ms = backend_order /\
             Forall (fun m => plugin m = p) ms)
          plugins mss.
Proof.
  intros HF.
  induction HF as [|p ms ps mss Hms HF IH]; constructor; [|exact IH].
  pose proof (managers_of_length Hms) as Hlen.
  destruct (count_statuses_block p ms) as (Hps & Hmsn).
  destruct Hms as (Hcls & Hall).
  repeat split; try assumption; try congruence.
  - apply manager_reports_block.
  - eapply Forall_impl; [|exact Hall]. cbn. intros m Hm. apply Hm.
Qed.

(** C5, as the code has it.  When nothing that runs during the call
    changes the sequence, a call of [remove_plugins] that returns has, for
    each plugin in input order, called [plugin_status_cb] on it, then run
    [remove_plugin], then called [removal_manager_status_cb] on each of the
    managers [remove_plugin] returned; its trace is one block per plugin,
    and the block of a plugin holds the one [plugin_status_cb] call for it
    first and exactly four [removal_manager_status_cb] calls last, one for
    each manager of the plugin, in backend order. *)
Theorem remove_plugins_callbacks (fuel : nat)
  (plugins : PluginSequence ProjectPlugin World) (w w' : World) (tr : Trace)
  (counts : Z * Z) :
  sequence_untouched construct_effect remove_effect plugin_status_cb
    removal_manager_status_cb plugins ->
  remove_plugins construct_effect remove_effect self_project plugin_status_cb
    removal_manager_status_cb fuel plugins w = Some (w', tr, Return counts) ->
  exists mss,
    processed construct_effect remove_effect self_project plugin_status_cb
      removal_manager_status_cb (plugins w) mss w w' /\
    tr = batch_trace (plugins w) mss /\
    Forall2 (fun p ms =>
               plugin_block p ms =
                 PluginStatus p :: removal_events p ++ map ManagerStatus ms /\
               count_where is_plugin_status (plugin_block p ms) = 1 /\
               count_where is_manager_status (plugin_block p ms) = 4 /\
               manager_reports (plugin_block p ms) = ms /\
               map manager_class ms = backend_order /\
               Forall (fun m => plugin m = p) ms)
            (plugins w) mss.
Proof.
  destruct counts as [removed attempted]. intros Hun H.
  assert (Hann : announced tr = plugins w)
    by (eapply announced_untouched; eassumption).
  apply remove_plugins_returns_live in H.
  destruct H as (mss & HF & Htr & _ & Hproc & _).
  rewrite Hann in HF, Htr, Hproc.
  exists mss. split; [exact Hproc|]. split; [exact Htr|].
  apply block_facts. exact HF.
Qed.

Lemma manager_reports_app (t1 t2 : Trace) :
  manager_reports (t1 ++ t2) = manager_reports t1 ++ manager_reports t2.
Proof.
  induction t1 as [|ev t1 IH]; [reflexivity|].
  destruct ev; cbn; rewrite IH; reflexivity.
Qed.

Lemma manager_reports_batch (plugins : list ProjectPlugin)
  (mss : list (list Manager)) :
  length plugins = length mss ->
  manager_reports (batch_trace plugins mss) = concat mss.
Proof.
  revert mss. induction plugins as [|p ps IH]; intros [|ms mss] Hlen;
    try discriminate; [reflexivity|].
  injection Hlen as Hlen. cbn [batch_trace concat].
  rewrite manager_reports_app, manager_reports_block, (IH _ Hlen).
  reflexivity.
Qed.

Lemma status_before_removal_announced (tr : Trace) (p : ProjectPlugin) :
  status_before_removal tr p -> In p (announced tr).
Proof.
  intros (l1 & l2 & c & -> & _). rewrite announced_app. apply in_or_app.
  right. left. reflexivity.
Qed.

(** C7, as the code has it.  When nothing that runs during the call
    changes the sequence, a call of [remove_plugins] that returns has, for
    each plugin in input order, called [plugin_status_cb] on it before its
    removal and, after its removal, [removal_manager_status_cb] once for
    the manager of each backend, in backend order; in the trace, the
    plugin's announcement comes before its [remove()] calls and each of
    its [remove()] calls is followed by the report of that backend's
    manager. *)
Theorem remove_plugins_progress_is_reported (fuel : nat)
  (plugins : PluginSequence ProjectPlugin World) (w w' : World) (tr : Trace)
  (counts : Z * Z) :
  sequence_untouched construct_effect remove_effect plugin_status_cb
    removal_manager_status_cb plugins ->
  remove_plugins construct_effect remove_effect self_project plugin_status_cb
    removal_manager_status_cb fuel plugins w = Some (w', tr, Return counts) ->
  (exists mss,
     processed construct_effect remove_effect self_project plugin_status_cb
       removal_manager_status_cb (plugins w) mss w w' /\
     Forall2 (fun p ms =>
                map manager_class ms = backend_order /\
                Forall (fun m => plugin m = p) ms)
             (plugins w) mss /\
     manager_reports tr = concat mss) /\
  forall p, In p (plugins w) -> progress_reported tr p.
Proof.
  destruct counts as [removed attempted]. intros Hun H.
  assert (Hann : announced tr = plugins w)
    by (eapply announced_untouched; eassumption).
  apply remove_plugins_returns_live in H.
  destruct H as (mss & HF & Htr & _ & Hproc & _).
  rewrite Hann in HF, Htr, Hproc. split.
  - exists mss. split; [exact Hproc|]. split.
    + clear - HF. induction HF as [|p ms ps mss Hms HF IH]; constructor.
      * destruct Hms as (Hcls & Hall). split; [exact Hcls|].
        eapply Forall_impl; [|exact Hall]. cbn. intros m Hm. apply Hm.
      * exact IH.
    + rewrite Htr. apply manager_reports_batch.
      eapply Forall2_length. exact HF.
  - intros p Hin.
    destruct (batch_trace_block p HF Hin) as (A & B & ms & Heq & Hms).
    rewrite Htr, Heq. split.
    + apply block_status_before_removal.
    + apply block_status_after_each_attempt. exact Hms.
Qed.

Lemma blocks_status_after_removes (plugins : list ProjectPlugin)
  (mss : list (list Manager)) :
  length mss = length plugins ->
  Forall2 (fun p ms =>
             forall (l1 : Trace) (m : Manager) (l2 : Trace),
               plugin_block p ms = l1 ++ ManagerStatus m :: l2 ->
               filter is_remove l1 = map (fun c => Remove c p) backend_order /\
               filter is_remove l2 = [])
          plugins mss.
Proof.
  revert mss. induction plugins as [|p ps IH]; intros [|ms mss] Hlen;
    try discriminate; constructor.
  - intros l1 m l2. apply block_status_after_removes.
  - apply IH. injection Hlen as Hlen. exact Hlen.
Qed.

(** C10. The trace of any finished call of [remove_plugins], returning or
    raising, whatever happens to the sequence, is an initial part of a
    sequence of blocks, one for each plugin the call announced, and all of
    it when the call returns, each plugin then having four managers.
    Wherever a [removal_manager_status_cb] call sits in the block of a
    plugin, the [remove()] calls before it in the block are all four of
    that plugin, in backend order, and no [remove()] call follows it in the
    block.  When nothing changes the sequence, the plugins announced are
    the first plugins of the input, and all of them when the call
    returns. *)
Theorem manager_status_after_removes (fuel : nat)
  (plugins : PluginSequence ProjectPlugin World) (w w' : World) (tr : Trace)
  (res : Result Exn (Z * Z)) :
  remove_plugins construct_effect remove_effect self_project plugin_status_cb
    removal_manager_status_cb fuel plugins w = Some (w', tr, res) ->
  (exists mss suffix,
     length mss = length (announced tr) /\
     tr ++ suffix = batch_trace (announced tr) mss /\
     match res with
     | Return _ => suffix = [] /\ Forall (fun ms => length ms = 4) mss
     | Raise _ => True
     end /\
     Forall2 (fun p ms =>
                forall l1 m l2,
                  plugin_block p ms = l1 ++ ManagerStatus m :: l2 ->
                  filter is_remove l1 =
                    map (fun c => Remove c p) backend_order /\
                  filter is_remove l2 = [])
             (announced tr) mss) /\
  (sequence_untouched construct_effect remove_effect plugin_status_cb
     removal_manager_status_cb plugins ->
   exists rest,
     plugins w = announced tr ++ rest /\
     (forall counts, res = Return counts -> rest = [])).
Proof.
  intros H. split.
  - apply remove_plugins_is_over in H. destruct H as (lres & Hloop & ->).
    pose proof (@blocks_status_after_removes (announced tr)) as Hblocks.
    destruct lres as [r|e].
    + apply loop_over_returns in Hloop.
      destruct Hloop as (mss & HF & Htr & _).
      pose proof (Forall2_length HF) as Hlen.
      exists mss, []. rewrite app_nil_r.
      repeat split; auto.
      clear - HF. induction HF as [|p ms ps mss Hms HF IH]; constructor.
      * eapply managers_of_length; eassumption.
      * exact IH.
    + apply loop_over_trace in Hloop.
      destruct Hloop as (mss & suffix & Hlen & Heq).
      exists mss, suffix. repeat split; auto.
  - intros Hun. eapply remove_plugins_untouched_inv in H; [|exact Hun].
    unfold remove_plugins_over, Eff.bind, Eff.ret in H.
    destruct (loop_over _ _ _ _ _ (plugins w) _ w) as [[w1 t1] lres] eqn:Hloop.
    apply loop_over_announced in Hloop.
    destruct Hloop as (rest & Hps & Hret).
    assert (Htr : tr = t1 /\
                  (forall counts, res = Return counts ->
                     exists r, lres = Return r)).
    { destruct lres as [r|e]; inversion H; subst;
        rewrite ?app_nil_r; split; try reflexivity;
        intros counts Hc; [exists r; reflexivity | discriminate]. }
    destruct Htr as (-> & Hlres).
    exists rest. split; [exact Hps|].
    intros counts Hc. destruct (Hlres _ Hc) as (r & ->).
    eapply Hret. reflexivity.
Qed.


End BatchFacts.

(** *** Independence from the callbacks *)

Lemma some_not_removed_flags (ms1 ms2 : list Manager) :
  map plugin_removed ms1 = map plugin_removed ms2 ->
  some_not_removed ms1 = some_not_removed ms2.
Proof.
  revert ms2. induction ms1 as [|m1 ms1 IH]; intros [|m2 ms2] H;
    try discriminate; [reflexivity|].
  cbn in H. injection H as Hm H.
  unfold some_not_removed, reports_removed in *. cbn.
  rewrite Hm. f_equal. apply IH. exact H.
Qed.

Lemma count_not_removed_flags (mss1 mss2 : list (list Manager)) :
  map (map plugin_removed) mss1 = map (map plugin_removed) mss2 ->
  count_where some_not_removed mss1 = count_where some_not_removed mss2.
Proof.
  revert mss2. induction mss1 as [|ms1 mss1 IH]; intros [|ms2 mss2] H;
    try discriminate; [reflexivity|].
  cbn in H. injection H as Hm H.
  unfold count_where in *. cbn.
  rewrite (some_not_removed_flags _ _ Hm).
  destruct (some_not_removed ms2); cbn; rewrite (IH _ H); reflexivity.
Qed.

(** C6. Two calls of [remove_plugins], with any two pairs of callbacks, on
    the same plugins (or just as many), that both return and in which the
    managers ended up with the same [plugin_removed] flags, return the
    same pair. *)
Theorem remove_plugins_callback_independent
  (cbP1 cbP2 : PluginStatusCb ProjectPlugin World Exn)
  (cbM1 cbM2 : ManagerStatusCb ProjectPlugin Project World Exn)
  (fuel1 fuel2 : nat) (plugins1 plugins2 : PluginSequence ProjectPlugin World)
  (w1 w1' w2 w2' : World) (tr1 tr2 : Trace) (counts1 counts2 : Z * Z) :
  remove_plugins construct_effect remove_effect self_project cbP1 cbM1
    fuel1 plugins1 w1 = Some (w1', tr1, Return counts1) ->
  remove_plugins construct_effect remove_effect self_project cbP2 cbM2
    fuel2 plugins2 w2 = Some (w2', tr2, Return counts2) ->
  length (plugins1 w1) = length (plugins2 w2) ->
  map (map plugin_removed) (reports tr1) =
    map (map plugin_removed) (reports tr2) ->
  counts1 = counts2.
Proof.
  destruct counts1 as [r1 a1], counts2 as [r2 a2]. intros H1 H2 Hlen Hflags.
  apply remove_plugins_returns_live in H1, H2.
  destruct H1 as (mss1 & _ & _ & Hr1 & _ & -> & ->).
  destruct H2 as (mss2 & _ & _ & Hr2 & _ & -> & ->).
  rewrite Hr1, Hr2 in Hflags.
  rewrite (count_not_removed_flags _ _ Hflags), Hlen. reflexivity.
Qed.

End ServiceFacts.

(** * Further properties of the service *)

Section Faults.

Variables ProjectPlugin Project World Exn : Type.

Variable construct_effect :
  ManagerClass -> ProjectPlugin -> Project -> World -> World * Result Exn unit.

Variable remove_effect :
  ManagerClass -> ProjectPlugin -> Project -> World -> World * Result Exn bool.

Variable self_project : Project.

Variable plugin_status_cb : PluginStatusCb ProjectPlugin World Exn.
Variable removal_manager_status_cb :
  ManagerStatusCb ProjectPlugin Project World Exn.

Local Notation "'Manager'" :=
  (PluginLocationRemoveManager ProjectPlugin Project).
Local Notation "'Trace'" := (list (Event ProjectPlugin Project)).

Local Notation "'run_batch'" :=
  (remove_plugins construct_effect remove_effect self_project
     plugin_status_cb removal_manager_status_cb).
Local Notation "'run_over'" :=
  (remove_plugins_over construct_effect remove_effect self_project
     plugin_status_cb removal_manager_status_cb).
Local Notation "'run_loop'" :=
  (loop_over construct_effect remove_effect self_project plugin_status_cb
     removal_manager_status_cb).
Local Notation "'run_step'" :=
  (plugin_step construct_effect remove_effect self_project plugin_status_cb
     removal_manager_status_cb).
Local Notation "'untouched'" :=
  (sequence_untouched construct_effect remove_effect plugin_status_cb
     removal_manager_status_cb).

(** *** Where an exception can come from *)








(** *** Faults in the callbacks *)

(** When [plugin_status_cb] raises on a plugin of a batch whose content
    cannot change, the batch stops there: no manager is constructed for
    that plugin, nothing is removed for it or for the plugins after it, and
    what the earlier plugins did stays. *)
Theorem plugin_callback_fault_propagates (fuel0 : nat)
  (pre post : list ProjectPlugin) (p : ProjectPlugin) (w w1 w2 : World)
  (tr1 : Trace) (counts : Z * Z) (e : Exn) :
  run_batch fuel0 (fun _ => pre) w = Some (w1, tr1, Return counts) ->
  plugin_status_cb p w1 = (w2, Raise e) ->
  forall fuel, length (pre ++ p :: post) < fuel ->
    run_batch fuel (fun _ => pre ++ p :: post) w =
      Some (w2, tr1 ++ [PluginStatus p], Raise e).
Proof.
  intros Hpre Hcb fuel Hfuel.
  eapply remove_plugins_untouched_inv in Hpre; [|apply tuple_untouched].
  erewrite remove_plugins_untouched; [|apply tuple_untouched|exact Hfuel].
  f_equal. eapply remove_plugins_over_app_raises; [symmetry; exact Hpre|].
  intros r. cbn [loop_over].
  unfold plugin_step, Eff.bind, Eff.emit, Eff.call.
  rewrite Hcb. reflexivity.
Qed.

Lemma status_loop_app_raises (ms1 ms2 : list Manager) (m : Manager)
  (any any1 : bool) (w w1 w2 : World) (tr1 : Trace) (e : Exn) :
  status_loop removal_manager_status_cb ms1 any w = (w1, tr1, Return any1) ->
  removal_manager_status_cb m w1 = (w2, Raise e) ->
  status_loop removal_manager_status_cb (ms1 ++ m :: ms2) any w =
    (w2, map ManagerStatus (ms1 ++ [m]), Raise e).
Proof.
  revert any w tr1. induction ms1 as [|m1 ms1 IH]; intros any w tr1 H1 Hcb.
  - apply ret_inv in H1. destruct H1 as (-> & _ & _).
    cbn [app status_loop]. unfold Eff.bind, Eff.emit, Eff.call.
    rewrite Hcb. reflexivity.
  - cbn [status_loop] in H1. step_return H1. step_return Hk.
    cbn [app status_loop]. unfold Eff.bind, Eff.emit, Eff.call.
    rewrite Hm. erewrite IH; [|exact Hk0|exact Hcb]. reflexivity.
Qed.

(** When [removal_manager_status_cb] raises on a manager of a plugin of a
    batch whose content cannot change, all four [remove()] calls for that
    plugin have already been made and stay made; the managers after the
    faulting one are not reported and the plugins after this one are not
    attempted. *)
Theorem manager_callback_fault_propagates (fuel0 : nat)
  (pre post : list ProjectPlugin) (p : ProjectPlugin)
  (ms1 ms2 : list Manager) (m : Manager)
  (w w1 w2 w3 w4 w5 : World) (tr1 tr3 trs : Trace) (counts : Z * Z)
  (any : bool) (e : Exn) :
  run_batch fuel0 (fun _ => pre) w = Some (w1, tr1, Return counts) ->
  plugin_status_cb p w1 = (w2, Return tt) ->
  remove_plugin construct_effect remove_effect self_project p w2 =
    (w3, tr3, Return (ms1 ++ m :: ms2)) ->
  status_loop removal_manager_status_cb ms1 false w3 = (w4, trs, Return any) ->
  removal_manager_status_cb m w4 = (w5, Raise e) ->
  forall fuel, length (pre ++ p :: post) < fuel ->
    run_batch fuel (fun _ => pre ++ p :: post) w =
      Some (w5,
            tr1 ++ PluginStatus p :: removal_events p ++
              map ManagerStatus (ms1 ++ [m]),
            Raise e).
Proof.
  intros Hpre Hcb Hrm Hst HcbM fuel Hfuel.
  eapply remove_plugins_untouched_inv in Hpre; [|apply tuple_untouched].
  erewrite remove_plugins_untouched; [|apply tuple_untouched|exact Hfuel].
  f_equal. eapply remove_plugins_over_app_raises; [symmetry; exact Hpre|].
  intros r. cbn [loop_over].
  unfold plugin_step, Eff.bind, Eff.emit, Eff.call.
  rewrite Hcb, Hrm.
  erewrite status_loop_app_raises; [|exact Hst|exact HcbM].
  apply remove_plugin_returns in Hrm. destruct Hrm as (-> & _).
  reflexivity.
Qed.

(** *** Batches compose *)

Lemma remove_plugins_over_app (ps1 ps2 : list ProjectPlugin)
  (w w1 w2 : World) (tr1 tr2 : Trace) (r1 a1 r2 a2 : Z) :
  run_over ps1 w = (w1, tr1, Return (r1, a1)) ->
  run_over ps2 w1 = (w2, tr2, Return (r2, a2)) ->
  run_over (ps1 ++ ps2) w =
    (w2, tr1 ++ tr2, Return ((r1 + r2)%Z, (a1 + a2)%Z)).
Proof.
  intros H1 H2. unfold remove_plugins_over in H1, H2.
  step_return H1. apply ret_inv in Hk. destruct Hk as (-> & -> & Hr1).
  injection Hr1 as Hr1 Ha1. subst r1 a1.
  step_return H2. apply ret_inv in Hk. destruct Hk as (-> & -> & Hr2).
  injection Hr2 as Hr2 Ha2. subst r2 a2.
  unfold remove_plugins_over.
  replace (Z.of_nat (length (ps1 ++ ps2)))
    with (Z.of_nat (length ps1) + Z.of_nat (length ps2))%Z
    by (rewrite length_app; lia).
  unfold Eff.bind. rewrite loop_over_shift.
  erewrite loop_over_app; [|exact Hm].
  replace a with (Z.of_nat (length ps2) + (a - Z.of_nat (length ps2)))%Z
    at 1 by lia.
  rewrite (loop_over_shift construct_effect remove_effect self_project
             plugin_status_cb removal_manager_status_cb ps2
             (Z.of_nat (length ps2)) (a - Z.of_nat (length ps2)) w0), Hm0.
  cbn [shift Eff.ret]. rewrite !app_nil_r. do 3 f_equal. lia.
Qed.

(** For batches whose content cannot change, removing [ps1 ++ ps2] in one
    call is removing [ps1] and then [ps2] in the world the first call
    left: the traces follow each other and both counts add up. *)
Theorem remove_plugins_app (fuel1 fuel2 : nat) (ps1 ps2 : list ProjectPlugin)
  (w w1 w2 : World) (tr1 tr2 : Trace) (r1 a1 r2 a2 : Z) :
  run_batch fuel1 (fun _ => ps1) w = Some (w1, tr1, Return (r1, a1)) ->
  run_batch fuel2 (fun _ => ps2) w1 = Some (w2, tr2, Return (r2, a2)) ->
  forall fuel, length (ps1 ++ ps2) < fuel ->
    run_batch fuel (fun _ => ps1 ++ ps2) w =
      Some (w2, tr1 ++ tr2, Return ((r1 + r2)%Z, (a1 + a2)%Z)).
Proof.
  intros H1 H2 fuel Hfuel.
  eapply remove_plugins_untouched_inv in H1; [|apply tuple_untouched].
  eapply remove_plugins_untouched_inv in H2; [|apply tuple_untouched].
  erewrite remove_plugins_untouched; [|apply tuple_untouched|exact Hfuel].
  f_equal. eapply remove_plugins_over_app; symmetry; eassumption.
Qed.

(** *** All or nothing per plugin *)

Lemma count_none_not_removed (mss : list (list Manager)) :
  count_where some_not_removed mss = 0 <->
  Forall (fun ms => all_removed ms = true) mss.
Proof.
  unfold count_where. induction mss as [|ms mss IH].
  - split; [constructor | reflexivity].
  - cbn [filter].
    destruct (some_not_removed ms) eqn:Hs; cbn [length].
    + split; [discriminate|]. intros HF.
      inversion HF as [|? ? Hms Hmss]; subst.
      rewrite all_removed_negb, Hs in Hms. discriminate.
    + rewrite IH. split; intros HF.
      * constructor; [|exact HF].
        rewrite all_removed_negb, Hs. reflexivity.
      * inversion HF; subst. assumption.
Qed.

(** The two counts returned by [remove_plugins] are equal exactly when
    every manager reported for every plugin announced has [plugin_removed]
    true, whatever happened to the sequence. *)
Theorem all_removed_iff_counts_equal (fuel : nat)
  (plugins : PluginSequence ProjectPlugin World) (w w' : World) (tr : Trace)
  (removed attempted : Z) :
  run_batch fuel plugins w = Some (w', tr, Return (removed, attempted)) ->
  removed = attempted <->
  Forall (fun ms => all_removed ms = true) (reports tr).
Proof.
  intros H. apply remove_plugins_returns_live in H.
  destruct H as (mss & _ & _ & -> & _ & -> & ->).
  rewrite <- count_none_not_removed. lia.
Qed.

(** *** How often [remove()] is called *)



End Faults.

(** *** A sequence that grows under the loop *)

Section Growth.

Variables ProjectPlugin Project World Exn : Type.

Variable construct_effect :
  ManagerClass -> ProjectPlugin -> Project -> World -> World * Result Exn unit.

Variable remove_effect :
  ManagerClass -> ProjectPlugin -> Project -> World -> World * Result Exn bool.

Variable self_project : Project.

Variable plugin_status_cb : PluginStatusCb ProjectPlugin World Exn.
Variable removal_manager_status_cb :
  ManagerStatusCb ProjectPlugin Project World Exn.

Variable plugins : PluginSequence ProjectPlugin World.

(** What holds of the world each time the loop asks the sequence for the
    plugin at an index. *)
Variable at_index : nat -> World -> Prop.



End Growth.

Section Defaults.

Variables ProjectPlugin Project World Exn : Type.

Variable construct_effect :
  ManagerClass -> ProjectPlugin -> Project -> World -> World * Result Exn unit.

Variable remove_effect :
  ManagerClass -> ProjectPlugin -> Project -> World -> World * Result Exn bool.

Variable self_project : Project.

Local Notation "'Manager'" :=
  (PluginLocationRemoveManager ProjectPlugin Project).
Local Notation "'Trace'" := (list (Event ProjectPlugin Project)).

Lemma status_loop_noop (ms : list Manager) (any : bool) (w : World) :
  status_loop (Exn:=Exn) noop ms any w =
    (w, map ManagerStatus ms, Return (some_not_removed ms || any)).
Proof.
  revert any. induction ms as [|m ms IH]; intros any; [reflexivity|].
  cbn [status_loop]. unfold Eff.bind, Eff.emit, Eff.call, noop.
  fold (@noop World Exn Manager). rewrite IH. cbn.
  unfold reports_removed.
  rewrite orb_assoc, (orb_comm (some_not_removed ms)). reflexivity.
Qed.

(** A batch of one plugin, held in a tuple, with the default callbacks is
    [remove_plugin] on that plugin: same world, the events of
    [remove_plugin] between the plugin's announcement and the four manager
    reports, the pair [(1, 1)] when all four managers report removed and
    [(0, 1)] otherwise; and when [remove_plugin] raises, the batch raises
    the same exception. *)
Theorem remove_plugins_single_default (fuel : nat) (p : ProjectPlugin)
  (w w' : World) (tr : Trace) (res : Result Exn (list Manager)) :
  remove_plugin construct_effect remove_effect self_project p w =
    (w', tr, res) ->
  remove_plugins construct_effect remove_effect self_project noop noop
    (S (S fuel)) (fun _ => [p]) w =
    Some
      match res with
      | Return ms =>
          (w', PluginStatus p :: tr ++ map ManagerStatus ms,
           Return ((if all_removed ms then 1 else 0)%Z, 1%Z))
      | Raise e => (w', PluginStatus p :: tr, Raise e)
      end.
Proof.
  intros H. unfold remove_plugins. cbn [plugins_loop nth_error length].
  unfold plugin_step, Eff.bind, Eff.emit, Eff.call.
  unfold noop at 1. rewrite H.
  destruct res as [ms|e]; [|reflexivity].
  rewrite status_loop_noop, all_removed_negb, orb_false_r.
  destruct (some_not_removed ms); cbn; rewrite !app_nil_r; reflexivity.
Qed.

End Defaults.

Section Noninterference.

Variables ProjectPlugin Project World Exn V : Type.

Variable construct_effect :
  ManagerClass -> ProjectPlugin -> Project -> World -> World * Result Exn unit.

Variable remove_effect :
  ManagerClass -> ProjectPlugin -> Project -> World -> World * Result Exn bool.

Variable self_project : Project.

(** The part of the world the managers read and change. *)
Variable view : World -> V.

Hypothesis construct_respects_view :
  forall c p wa wb wa' wb',
    view wa = view wb ->
    construct_effect c p self_project wa = (wa', Return tt) ->
    construct_effect c p self_project wb = (wb', Return tt) ->
    view wa' = view wb'.

Hypothesis remove_respects_view :
  forall c p wa wb wa' wb' ba bb,
    view wa = view wb ->
    remove_effect c p self_project wa = (wa', Return ba) ->
    remove_effect c p self_project wb = (wb', Return bb) ->
    ba = bb /\ view wa' = view wb'.

(** The sequence of plugins is in that part too. *)
Variable plugins : PluginSequence ProjectPlugin World.

Hypothesis sequence_in_view :
  forall wa wb, view wa = view wb -> plugins wa = plugins wb.

Local Notation "'Manager'" :=
  (PluginLocationRemoveManager ProjectPlugin Project).
Local Notation "'Trace'" := (list (Event ProjectPlugin Project)).

Lemma construct_managers_view (p : ProjectPlugin) (wa wb wa' wb' : World)
  (ta tb : Trace) (msa msb : list Manager) :
  view wa = view wb ->
  construct_managers construct_effect self_project p wa =
    (wa', ta, Return msa) ->
  construct_managers construct_effect self_project p wb =
    (wb', tb, Return msb) ->
  msa = msb /\ view wa' = view wb'.
Proof.
  intros Hv Ha Hb.
  apply construct_managers_returns in Ha, Hb.
  destruct Ha as (_ & -> & a1 & a2 & a3 & A1 & A2 & A3 & A4).
  destruct Hb as (_ & -> & b1 & b2 & b3 & B1 & B2 & B3 & B4).
  split; [reflexivity|].
  pose proof (construct_respects_view Hv A1 B1) as Hv1.
  pose proof (construct_respects_view Hv1 A2 B2) as Hv2.
  pose proof (construct_respects_view Hv2 A3 B3) as Hv3.
  exact (construct_respects_view Hv3 A4 B4).
Qed.

Lemma remove_each_view (p : ProjectPlugin) (cs : list ManagerClass)
  (wa wb wa' wb' : World) (ta tb : Trace) (msa msb : list Manager) :
  view wa = view wb ->
  remove_each remove_effect
    (map (fun c => mkManager c p self_project None) cs) wa =
    (wa', ta, Return msa) ->
  remove_each remove_effect
    (map (fun c => mkManager c p self_project None) cs) wb =
    (wb', tb, Return msb) ->
  msa = msb /\ view wa' = view wb'.
Proof.
  revert wa wb ta tb msa msb.
  induction cs as [|c cs IH]; intros wa wb ta tb msa msb Hv Ha Hb.
  - apply ret_inv in Ha, Hb.
    destruct Ha as (-> & _ & Ha), Hb as (-> & _ & Hb).
    inversion Ha; inversion Hb; subst. auto.
  - cbn [map] in Ha, Hb.
    apply remove_each_cons_returns in Ha, Hb. cbn in Ha, Hb.
    destruct Ha as (wa1 & ba & ta' & resta & Hea & Hra & ->).
    destruct Hb as (wb1 & bb & tb' & restb & Heb & Hrb & ->).
    destruct (remove_respects_view Hv Hea Heb) as (-> & Hv1).
    destruct (IH _ _ _ _ _ _ Hv1 Hra Hrb) as (-> & Hv2).
    auto.
Qed.

Lemma remove_plugin_view (p : ProjectPlugin) (wa wb wa' wb' : World)
  (ta tb : Trace) (msa msb : list Manager) :
  view wa = view wb ->
  remove_plugin construct_effect remove_effect self_project p wa =
    (wa', ta, Return msa) ->
  remove_plugin construct_effect remove_effect self_project p wb =
    (wb', tb, Return msb) ->
  msa = msb /\ ta = tb /\ view wa' = view wb'.
Proof.
  intros Hv Ha Hb.
  pose proof (remove_plugin_returns _ _ _ _ _ Ha) as (Hta & _).
  pose proof (remove_plugin_returns _ _ _ _ _ Hb) as (Htb & _).
  unfold remove_plugin in Ha, Hb.
  apply bind_Return_inv in Ha, Hb.
  destruct Ha as (wa1 & tca & ma0 & tea & Hca & Hea & _).
  destruct Hb as (wb1 & tcb & mb0 & teb & Hcb & Heb & _).
  assert (Hc : ma0 = mb0 /\ view wa1 = view wb1)
    by (eapply construct_managers_view; eassumption).
  destruct Hc as (<- & Hv1).
  apply construct_managers_returns in Hca. destruct Hca as (_ & -> & _).
  assert (Hres : msa = msb /\ view wa' = view wb')
    by (eapply remove_each_view; eassumption).
  destruct Hres as (-> & Hv'). subst. auto.
Qed.

Lemma status_loop_view
  (cb : ManagerStatusCb ProjectPlugin Project World Exn)
  (ms : list Manager) (any any' : bool) (w w' : World) (tr : Trace) :
  (forall m w0 w1, cb m w0 = (w1, Return tt) -> view w1 = view w0) ->
  status_loop cb ms any w = (w', tr, Return any') ->
  view w' = view w.
Proof.
  intros Hcb. revert any w tr.
  induction ms as [|m ms IH]; intros any w tr H.
  - apply ret_inv in H. destruct H as (-> & _). reflexivity.
  - cbn [status_loop] in H. unfold Eff.bind, Eff.emit, Eff.call in H.
    destruct (cb m w) as [w1 [[]|e]] eqn:Hm; [|discriminate].
    destruct (status_loop cb ms _ w1) as [[w2 t2] [b|e]] eqn:Hrest;
      inversion H; subst.
    rewrite (IH _ _ _ Hrest). eapply Hcb. exact Hm.
Qed.

Section TwoCallbackPairs.

Variables cbP1 cbP2 : PluginStatusCb ProjectPlugin World Exn.
Variables cbM1 cbM2 : ManagerStatusCb ProjectPlugin Project World Exn.

Hypothesis HP1 : forall p w0 w, cbP1 p w0 = (w, Return tt) -> view w = view w0.
Hypothesis HP2 : forall p w0 w, cbP2 p w0 = (w, Return tt) -> view w = view w0.
Hypothesis HM1 : forall m w0 w, cbM1 m w0 = (w, Return tt) -> view w = view w0.
Hypothesis HM2 : forall m w0 w, cbM2 m w0 = (w, Return tt) -> view w = view w0.

Lemma plugin_step_view (p : ProjectPlugin) (r ra rb : Z)
  (wa wb wa' wb' : World) (ta tb : Trace) :
  view wa = view wb ->
  plugin_step construct_effect remove_effect self_project cbP1 cbM1 p r wa =
    (wa', ta, Return ra) ->
  plugin_step construct_effect remove_effect self_project cbP2 cbM2 p r wb =
    (wb', tb, Return rb) ->
  ra = rb /\ ta = tb /\ view wa' = view wb'.
Proof.
  intros Hv L1 L2.
  unfold plugin_step, Eff.bind, Eff.emit, Eff.call, Eff.ret in L1, L2.
  destruct (cbP1 p wa) as [wa1 [[]|?]] eqn:C1; [|discriminate].
  destruct (cbP2 p wb) as [wb1 [[]|?]] eqn:C2; [|discriminate].
  destruct (remove_plugin construct_effect remove_effect self_project p wa1)
    as [[wa2 ta2] [msa|?]] eqn:R1; [|discriminate].
  destruct (remove_plugin construct_effect remove_effect self_project p wb1)
    as [[wb2 tb2] [msb|?]] eqn:R2; [|discriminate].
  destruct (status_loop cbM1 msa false wa2)
    as [[wa3 ta3] [anya|?]] eqn:S1; [|discriminate].
  destruct (status_loop cbM2 msb false wb2)
    as [[wb3 tb3] [anyb|?]] eqn:S2; [|discriminate].
  assert (Hv1 : view wa1 = view wb1).
  { rewrite (HP1 C1), (HP2 C2). exact Hv. }
  assert (Hrm : msa = msb /\ ta2 = tb2 /\ view wa2 = view wb2)
    by (eapply remove_plugin_view; eassumption).
  destruct Hrm as (-> & -> & Hv2).
  assert (Hv3 : view wa3 = view wb3).
  { transitivity (view wa2);
      [eapply status_loop_view; [exact HM1 | exact S1]|].
    transitivity (view wb2); [exact Hv2|].
    symmetry. eapply status_loop_view; [exact HM2 | exact S2]. }
  apply status_loop_returns in S1, S2.
  destruct S1 as (-> & ->), S2 as (-> & ->).
  inversion L1; inversion L2; subst. auto.
Qed.

Lemma plugins_loop_view (fuel1 fuel2 i : nat) (r ra rb : Z)
  (wa wb wa' wb' : World) (ta tb : Trace) :
  view wa = view wb ->
  plugins_loop construct_effect remove_effect self_project cbP1 cbM1
    fuel1 plugins i r wa = Some (wa', ta, Return ra) ->
  plugins_loop construct_effect remove_effect self_project cbP2 cbM2
    fuel2 plugins i r wb = Some (wb', tb, Return rb) ->
  ra = rb /\ ta = tb /\ view wa' = view wb'.
Proof.
  revert fuel2 i r wa wb ta tb.
  induction fuel1 as [|fuel1 IH]; intros fuel2 i r wa wb ta tb Hv L1 L2;
    [discriminate|].
  destruct fuel2 as [|fuel2]; [discriminate|].
  cbn [plugins_loop] in L1, L2.
  rewrite (sequence_in_view Hv) in L1.
  destruct (nth_error (plugins wb) i) as [p|].
  - destruct (plugin_step _ _ _ cbP1 cbM1 p r wa)
      as [[wa1 ta1] [ra1|?]] eqn:S1; [|discriminate].
    destruct (plugin_step _ _ _ cbP2 cbM2 p r wb)
      as [[wb1 tb1] [rb1|?]] eqn:S2; [|discriminate].
    assert (Hstep : ra1 = rb1 /\ ta1 = tb1 /\ view wa1 = view wb1)
      by (eapply plugin_step_view; eassumption).
    destruct Hstep as (-> & -> & Hv1).
    destruct (plugins_loop _ _ _ cbP1 cbM1 fuel1 plugins (S i) rb1 wa1)
      as [[[wa2 ta2] resa]|] eqn:La; [|discriminate].
    destruct (plugins_loop _ _ _ cbP2 cbM2 fuel2 plugins (S i) rb1 wb1)
      as [[[wb2 tb2] resb]|] eqn:Lb; [|discriminate].
    inversion L1; inversion L2; subst.
    destruct (IH _ _ _ _ _ _ _ Hv1 La Lb) as (-> & -> & Hv2).
    auto.
  - inversion L1; inversion L2; subst. auto.
Qed.

(** Callbacks that leave alone what the managers read, the sequence of
    plugins included, cannot change what [remove_plugins] does: two calls
    on the same sequence, with any two such pairs of callbacks, from
    worlds the managers cannot tell apart, that both return, return the
    same pair, make the same calls in the same order with the same manager
    flags, and end in worlds the managers cannot tell apart. *)
Theorem callbacks_do_not_interfere (fuel1 fuel2 : nat)
  (w1 w2 w1' w2' : World) (tr1 tr2 : Trace) (counts1 counts2 : Z * Z) :
  view w1 = view w2 ->
  remove_plugins construct_effect remove_effect self_project cbP1 cbM1
    fuel1 plugins w1 = Some (w1', tr1, Return counts1) ->
  remove_plugins construct_effect remove_effect self_project cbP2 cbM2
    fuel2 plugins w2 = Some (w2', tr2, Return counts2) ->
  counts1 = counts2 /\ tr1 = tr2 /\ view w1' = view w2'.
Proof.
  intros Hv H1 H2. unfold remove_plugins in H1, H2.
  rewrite (sequence_in_view Hv) in H1.
  destruct (plugins_loop _ _ _ cbP1 cbM1 fuel1 plugins 0 _ w1)
    as [[[wa ta] [ra|?]]|] eqn:L1; try discriminate.
  destruct (plugins_loop _ _ _ cbP2 cbM2 fuel2 plugins 0 _ w2)
    as [[[wb tb] [rb|?]]|] eqn:L2; try discriminate.
  assert (Hloop : ra = rb /\ ta = tb /\ view wa = view wb)
    by (eapply plugins_loop_view; eassumption).
  destruct Hloop as (-> & -> & Hv').
  inversion H1; inversion H2; subst. auto.
Qed.

End TwoCallbackPairs.

End Noninterference.

(** * The service on the small project *)

(** Three plugins in a tuple, the second without installed files: two of
    three count as removed. *)
Example demo_two_of_three :
  Demo.outcome (Demo.run_default [1; 2; 3] Demo.w0) =
    Some (Return (2%Z, 3%Z)).
Proof. reflexivity. Qed.

(** A callback that changes what the managers find changes the counts: the
    outcomes of the managers are not the same in the two runs. *)
Example demo_reinstall_changes_counts :
  Demo.outcome (Demo.run_default [2] Demo.w0) = Some (Return (0%Z, 1%Z)) /\
  Demo.outcome (Demo.run_plugins Demo.reinstall noop 2 (Demo.tuple [2])
                  Demo.w0) =
    Some (Return (1%Z, 1%Z)).
Proof. split; reflexivity. Qed.

(** A callback that puts a plugin on the batch list each time it is called
    keeps the loop going: forty steps do not bring this call to an end. *)
Example demo_growing_batch_runs_out :
  Demo.run_plugins (Demo.append_on 2 2) noop 40 Demo.batch_list
    (Demo.with_batch [2]) = None.
Proof. vm_compute. reflexivity. Qed.

Lemma demo_construct_keeps_batch (c : ManagerClass) (p : nat) (proj : unit)
  (w : Demo.World) :
  Demo.batch (fst (Demo.construct_effect c p proj w)) = Demo.batch w.
Proof.
  unfold Demo.construct_effect. destruct (_ && _); reflexivity.
Defined.

Lemma demo_remove_keeps_batch (c : ManagerClass) (p : nat) (proj : unit)
  (w : Demo.World) :
  Demo.batch (fst (Demo.remove_effect c p proj w)) = Demo.batch w.
Proof.
  unfold Demo.remove_effect. destruct (_ && _); [reflexivity|].
  destruct (existsb _ _); reflexivity.
Defined.

Lemma demo_untouched
  (cbP : PluginStatusCb nat Demo.World Demo.Exn)
  (cbM : ManagerStatusCb nat unit Demo.World Demo.Exn) :
  (forall p w, Demo.batch (fst (cbP p w)) = Demo.batch w) ->
  (forall m w, Demo.batch (fst (cbM m w)) = Demo.batch w) ->
  sequence_untouched Demo.construct_effect Demo.remove_effect cbP cbM
    Demo.batch_list.
Proof.
  intros HP HM. split; [exact HP|]. split; [exact HM|]. split.
  - intros c p proj w. apply demo_construct_keeps_batch.
  - intros c p proj w. apply demo_remove_keeps_batch.
Defined.

Lemma demo_tick_untouched :
  sequence_untouched Demo.construct_effect Demo.remove_effect
    (@Demo.tick nat) (@Demo.tick _) Demo.batch_list.
Proof. apply demo_untouched; intros; reflexivity. Defined.

Lemma demo_construct_never_raises (c : ManagerClass) (p : nat)
  (w0 : Demo.World) :
  p <> Demo.demo_unbuildable ->
  exists w1, Demo.construct_effect c p tt w0 = (w1, Return tt).
Proof.
  intros Hp. unfold Demo.construct_effect.
  apply Nat.eqb_neq in Hp. rewrite Hp, andb_false_r.
  eexists; reflexivity.
Defined.

Lemma demo_remove_never_raises (c : ManagerClass) (p : nat)
  (w0 : Demo.World) :
  p <> Demo.demo_locked ->
  exists w1 b, Demo.remove_effect c p tt w0 = (w1, Return b).
Proof.
  intros Hp. unfold Demo.remove_effect.
  apply Nat.eqb_neq in Hp. rewrite Hp, andb_false_r.
  destruct (existsb _ _); eexists; eexists; reflexivity.
Defined.

(** C1, as the spec words it, fails twice.  The caller passes the list
    [[2]] and a plugin callback that appends plugin 9 to that list when
    told of plugin 2: nothing raises, neither plugin is fully removed, and
    the call returns [(-1, 1)], where [-1] is not a number of plugins.
    And on the tuple [(demo_unbuildable,)] no [remove()] is called and the
    default callbacks do not raise, yet no pair is returned: the
    constructor of the installation manager raises. *)
Lemma remove_plugins_counts_counterexample :
  let run :=
    Demo.run_plugins (Demo.append_on 2 9) noop 10 Demo.batch_list
      (Demo.with_batch [2]) in
  let run' := Demo.run_default [Demo.demo_unbuildable] Demo.w0 in
  (Demo.outcome run = Some (Return ((-1)%Z, 1%Z)) /\
   (forall n : nat, (-1)%Z <> Z.of_nat n) /\
   (-1)%Z <>
     Z.of_nat (count_where all_removed (reports (Demo.trace_of run)))) /\
  (Demo.outcome run' =
     Some (Raise (InstallationRemoveManager, Demo.demo_unbuildable)) /\
   count_where is_remove (Demo.trace_of run') = 0).
Proof.
  split.
  - split; [vm_compute; reflexivity|]. split; [intros n|]; lia.
  - split; vm_compute; reflexivity.
Qed.

Lemma remove_plugins_counts_witness :
  let w := Demo.with_batch [1; 2; 3] in
  let run :=
    Demo.run_plugins (@Demo.tick _) (@Demo.tick _) 4 Demo.batch_list w in
  Demo.outcome run = Some (Return (2%Z, 3%Z)) /\
  3%Z = Z.of_nat (length (Demo.batch_list w)) /\
  2%Z = Z.of_nat (count_where all_removed (reports (Demo.trace_of run))) /\
  exists w' tr removed, run = Some (w', tr, Return (removed, 3%Z)).
Proof.
  intros w run. split; [vm_compute; reflexivity|].
  assert (Hrun : run =
                 Some (Demo.world_of run w, Demo.trace_of run,
                       Return (2%Z, 3%Z)))
    by (vm_compute; reflexivity).
  destruct (remove_plugins_counts tt 4 w demo_tick_untouched)
    as (Hret & Hruns).
  destruct (Hret _ _ _ _ Hrun) as (Ha & _ & Hr & _).
  split; [exact Ha|]. split; [exact Hr|].
  apply Hruns.
  - intros c p w0 Hin. apply demo_construct_never_raises.
    cbn in Hin. intros ->.
    destruct Hin as [H | [H | [H | []]]]; discriminate H.
  - intros c p w0 Hin. apply demo_remove_never_raises.
    cbn in Hin. intros ->.
    destruct Hin as [H | [H | [H | []]]]; discriminate H.
  - intros p w0 _. eexists. reflexivity.
  - intros m w0 _. eexists. reflexivity.
  - cbn. lia.
Defined.



Lemma remove_plugin_order_witness :
  exists w' ms,
    Demo.run_plugin 2 Demo.w0 =
      (w',
       [Construct DbRemoveManager 2; Construct MeltanoYmlRemoveManager 2;
        Construct InstallationRemoveManager 2;
        Construct LockedDefinitionRemoveManager 2;
        Remove DbRemoveManager 2; Remove MeltanoYmlRemoveManager 2;
        Remove InstallationRemoveManager 2;
        Remove LockedDefinitionRemoveManager 2],
       Return ms) /\
    map manager_class ms = backend_order /\
    map plugin_removed ms = [Some true; Some true; Some false; Some true].
Proof.
  pose (run := Demo.run_plugin 2 Demo.w0).
  exists (fst (fst run)).
  destruct (@remove_plugin_order _ _ _ _ Demo.construct_effect
              Demo.remove_effect tt 2 _ Demo.w0 _ _ eq_refl)
    as (_ & Hcls & _).
  eexists. split; [reflexivity|]. split; [exact Hcls | reflexivity].
Defined.


(** C5, as the spec words it, fails: the caller passes the list [[1; 2]]
    and a plugin callback that takes the last plugin off that list.  The
    call returns [(2, 2)], and plugin 2, which was in the input, was never
    announced. *)
Lemma remove_plugins_callbacks_counterexample :
  let run :=
    Demo.run_plugins Demo.drop_last noop 10 Demo.batch_list
      (Demo.with_batch [1; 2]) in
  Demo.outcome run = Some (Return (2%Z, 2%Z)) /\
  ~ (forall p, In p [1; 2] ->
       count_occ Nat.eq_dec (announced (Demo.trace_of run)) p = 1).
Proof.
  split; [vm_compute; reflexivity|].
  intros H. specialize (H 2 (or_intror (or_introl eq_refl))).
  vm_compute in H. discriminate H.
Qed.

Lemma remove_plugins_callbacks_witness :
  let w := Demo.with_batch [1; 2] in
  let run :=
    Demo.run_plugins (@Demo.tick _) (@Demo.tick _) 3 Demo.batch_list w in
  Demo.outcome run = Some (Return (1%Z, 2%Z)) /\
  exists mss,
    processed Demo.construct_effect Demo.remove_effect tt
      (@Demo.tick _) (@Demo.tick _) [1; 2] mss w (Demo.world_of run w) /\
    Demo.trace_of run = batch_trace [1; 2] mss /\
    Demo.ticks (Demo.world_of run w) = 10.
Proof.
  intros w run. split; [vm_compute; reflexivity|].
  assert (Hrun : run =
                 Some (Demo.world_of run w, Demo.trace_of run,
                       Return (1%Z, 2%Z)))
    by (vm_compute; reflexivity).
  destruct (remove_plugins_callbacks tt 3 w demo_tick_untouched Hrun)
    as (mss & Hproc & Htr & _).
  exists mss. split; [exact Hproc|]. split; [exact Htr|].
  vm_compute. reflexivity.
Defined.

Lemma remove_plugins_callback_independent_witness :
  let run1 :=
    Demo.run_plugins (@Demo.tick _) (@Demo.tick _) 4 Demo.batch_list
      (Demo.with_batch [1; 2; 3]) in
  let run2 := Demo.run_default [1; 2; 3] Demo.w0 in
  Demo.outcome run1 = Some (Return (2%Z, 3%Z)) /\
  Demo.outcome run2 = Some (Return (2%Z, 3%Z)) /\
  (2%Z, 3%Z) = (2%Z, 3%Z).
Proof.
  intros run1 run2.
  split; [vm_compute; reflexivity|]. split; [vm_compute; reflexivity|].
  apply (@remove_plugins_callback_independent _ _ _ _
           Demo.construct_effect Demo.remove_effect tt
           (@Demo.tick _) noop (@Demo.tick _) noop 4 4
           Demo.batch_list (Demo.tuple [1; 2; 3])
           (Demo.with_batch [1; 2; 3])
           (Demo.world_of run1 Demo.w0)
           Demo.w0
           (Demo.world_of run2 Demo.w0)
           (Demo.trace_of run1) (Demo.trace_of run2)).
  - vm_compute. reflexivity.
  - vm_compute. reflexivity.
  - reflexivity.
  - vm_compute. reflexivity.
Defined.

(** C7, as the spec words it, fails twice.  The caller passes the list
    [[1; 2]] and a plugin callback that takes the last plugin off that
    list: the call returns [(2, 2)], and for plugin 2, which was in the
    input, no progress callback was made.  And on the tuple
    [(1, demo_locked, 3)] the manifest of the second plugin cannot be
    written: the call raises, and no progress callback was made for
    plugin 3. *)
Lemma remove_plugins_progress_is_reported_counterexample :
  let run :=
    Demo.run_plugins Demo.drop_last noop 10 Demo.batch_list
      (Demo.with_batch [1; 2]) in
  let run' := Demo.run_default [1; Demo.demo_locked; 3] Demo.w0 in
  (Demo.outcome run = Some (Return (2%Z, 2%Z)) /\
   ~ (forall p, In p [1; 2] -> progress_reported (Demo.trace_of run) p)) /\
  (Demo.outcome run' =
     Some (Raise (MeltanoYmlRemoveManager, Demo.demo_locked)) /\
   ~ (forall p, In p [1; Demo.demo_locked; 3] ->
        progress_reported (Demo.trace_of run') p)).
Proof.
  split.
  - split; [vm_compute; reflexivity|].
    intros H. destruct (H 2 (or_intror (or_introl eq_refl))) as (Hbefore & _).
    apply status_before_removal_announced in Hbefore.
    vm_compute in Hbefore. destruct Hbefore as [Hb | []]. discriminate Hb.
  - split; [vm_compute; reflexivity|].
    intros H.
    destruct (H 3 (or_intror (or_intror (or_introl eq_refl))))
      as (Hbefore & _).
    apply status_before_removal_announced in Hbefore.
    vm_compute in Hbefore.
    destruct Hbefore as [Hb | [Hb | []]]; discriminate Hb.
Qed.

Lemma remove_plugins_progress_is_reported_witness :
  let w := Demo.with_batch [1; 2; 3] in
  let run :=
    Demo.run_plugins (@Demo.tick _) (@Demo.tick _) 4 Demo.batch_list w in
  Demo.outcome run = Some (Return (2%Z, 3%Z)) /\
  progress_reported (Demo.trace_of run) 2 /\
  Demo.ticks (Demo.world_of run w) = 15.
Proof.
  intros w run. split; [vm_compute; reflexivity|].
  assert (Hrun : run =
                 Some (Demo.world_of run w, Demo.trace_of run,
                       Return (2%Z, 3%Z)))
    by (vm_compute; reflexivity).
  destruct (remove_plugins_progress_is_reported tt 4 w demo_tick_untouched
              Hrun)
    as (_ & Hall).
  split; [|vm_compute; reflexivity].
  exact (Hall 2 (or_intror (or_introl eq_refl))).
Defined.

Lemma remove_plugins_empty_witness :
  Demo.run_plugins (@Demo.tick _) (@Demo.tick _) 1 Demo.batch_list Demo.w0 =
    Some (Demo.w0, [], Return (0%Z, 0%Z)).
Proof.
  exact (@remove_plugins_empty _ _ _ _ Demo.construct_effect
           Demo.remove_effect tt (@Demo.tick _) (@Demo.tick _) 0
           Demo.batch_list Demo.w0 eq_refl).
Defined.

Lemma plugin_step_decrements_once_witness :
  let run :=
    plugin_step Demo.construct_effect Demo.remove_effect tt noop noop 9 5%Z
      Demo.w0 in
  not_removed_count (manager_reports (snd (fst run))) = 4 /\
  snd run = Return 4%Z.
Proof.
  destruct (@plugin_step_decrements_once _ _ _ _ Demo.construct_effect
              Demo.remove_effect tt noop noop 9 5%Z _ Demo.w0 _ _ eq_refl)
    as (_ & _ & Hdec).
  split; [reflexivity|].
  exact (f_equal (@Return Demo.Exn Z)
           (eq_sym (Hdec (conj (le_S _ _ (le_S _ _ (le_S _ _ (le_n 1))))
                               (le_n 4))))).
Defined.

Lemma manager_status_after_removes_witness :
  let run := Demo.run_default [1; Demo.demo_locked; 3] Demo.w0 in
  Demo.outcome run =
    Some (Raise (MeltanoYmlRemoveManager, Demo.demo_locked)) /\
  announced (Demo.trace_of run) = [1; Demo.demo_locked] /\
  exists mss suffix,
    length mss = 2 /\
    Demo.trace_of run ++ suffix = batch_trace [1; Demo.demo_locked] mss.
Proof.
  intros run. split; [vm_compute; reflexivity|].
  split; [vm_compute; reflexivity|].
  assert (Hrun : run =
                 Some (Demo.world_of run Demo.w0, Demo.trace_of run,
                       Raise (MeltanoYmlRemoveManager, Demo.demo_locked)))
    by (vm_compute; reflexivity).
  destruct (@manager_status_after_removes _ _ _ _ Demo.construct_effect
              Demo.remove_effect tt noop noop 4
              (Demo.tuple [1; Demo.demo_locked; 3]) Demo.w0 _ _ _ Hrun)
    as ((mss & suffix & Hlen & Heq & _) & _).
  exists mss, suffix. split; [exact Hlen | exact Heq].
Defined.

(** ** Further runs on the small project *)

Lemma demo_construct_respects_view (c : ManagerClass) (p : nat)
  (wa wb wa' wb' : Demo.World) :
  Demo.view wa = Demo.view wb ->
  Demo.construct_effect c p tt wa = (wa', Return tt) ->
  Demo.construct_effect c p tt wb = (wb', Return tt) ->
  Demo.view wa' = Demo.view wb'.
Proof.
  unfold Demo.construct_effect. intros Hv.
  destruct (_ && _); [discriminate|].
  intros Ha Hb. inversion Ha; inversion Hb; subst. exact Hv.
Defined.

Lemma demo_remove_respects_view (c : ManagerClass) (p : nat)
  (wa wb wa' wb' : Demo.World) (ba bb : bool) :
  Demo.view wa = Demo.view wb ->
  Demo.remove_effect c p tt wa = (wa', Return ba) ->
  Demo.remove_effect c p tt wb = (wb', Return bb) ->
  ba = bb /\ Demo.view wa' = Demo.view wb'.
Proof.
  unfold Demo.remove_effect, Demo.view. intros Hv.
  injection Hv as Hpres Hbatch. rewrite Hpres.
  destruct (_ && _); [discriminate|].
  destruct (existsb _ _); intros Ha Hb; inversion Ha; inversion Hb; subst;
    cbn [Demo.present Demo.batch]; rewrite ?Hpres, ?Hbatch; auto.
Defined.

Lemma demo_batch_in_view (wa wb : Demo.World) :
  Demo.view wa = Demo.view wb -> Demo.batch_list wa = Demo.batch_list wb.
Proof.
  unfold Demo.view. intros Hv. injection Hv as _ Hbatch. exact Hbatch.
Defined.

Lemma remove_plugin_completes_witness :
  exists w' ms,
    Demo.run_plugin 2 Demo.w0 = (w', removal_events 2, Return ms) /\
    map manager_class ms = backend_order.
Proof.
  apply (@remove_plugin_completes _ _ _ _ Demo.construct_effect
           Demo.remove_effect tt 2 Demo.w0).
  - intros c w0 _. apply demo_construct_never_raises. discriminate.
  - intros c w0 _. apply demo_remove_never_raises. discriminate.
Defined.

Lemma remove_plugins_completes_witness :
  exists w' tr removed,
    Demo.run_plugins (@Demo.tick _) (@Demo.tick _) 4 Demo.batch_list
      (Demo.with_batch [1; 2; 3]) =
      Some (w', tr, Return (removed, 3%Z)).
Proof.
  apply (@remove_plugins_completes _ _ _ _ Demo.construct_effect
           Demo.remove_effect tt (@Demo.tick _) (@Demo.tick _) 4
           Demo.batch_list (Demo.with_batch [1; 2; 3])).
  - exact demo_tick_untouched.
  - intros c p w0 Hin. apply demo_construct_never_raises.
    cbn in Hin. intros ->.
    destruct Hin as [H | [H | [H | []]]]; discriminate H.
  - intros c p w0 Hin. apply demo_remove_never_raises.
    cbn in Hin. intros ->.
    destruct Hin as [H | [H | [H | []]]]; discriminate H.
  - intros p w0 _. eexists. reflexivity.
  - intros m w0 _. eexists. reflexivity.
  - cbn. lia.
Defined.


Lemma plugin_callback_fault_propagates_witness :
  let run1 := Demo.run_default [1] Demo.w0 in
  Demo.outcome run1 = Some (Return (1%Z, 1%Z)) /\
  Demo.run_plugins (Demo.refuse_plugin 2) noop 4 (Demo.tuple ([1] ++ 2 :: [3]))
    Demo.w0 =
    Some (Demo.world_of run1 Demo.w0,
          Demo.trace_of run1 ++ [PluginStatus 2],
          Raise (DbRemoveManager, 2)).
Proof.
  intros run1. split; [vm_compute; reflexivity|].
  refine (@plugin_callback_fault_propagates _ _ _ _ Demo.construct_effect
            Demo.remove_effect tt (Demo.refuse_plugin 2) noop 2 [1] [3] 2
            Demo.w0 (Demo.world_of run1 Demo.w0) (Demo.world_of run1 Demo.w0)
            (Demo.trace_of run1) (1%Z, 1%Z) (DbRemoveManager, 2)
            _ _ 4 (le_n 4)).
  - vm_compute. reflexivity.
  - vm_compute. reflexivity.
Defined.

Lemma manager_callback_fault_propagates_witness :
  exists w5 ms,
    Demo.run_plugins noop (Demo.refuse_manager MeltanoYmlRemoveManager) 3
      (Demo.tuple ([] ++ 1 :: [3])) Demo.w0 =
      Some
        (w5,
         [] ++ PluginStatus 1 :: removal_events 1 ++ map ManagerStatus ms,
         Raise (MeltanoYmlRemoveManager, 1)) /\
    map manager_class ms = [DbRemoveManager; MeltanoYmlRemoveManager] /\
    existsb (Demo.entry_eqb (LockedDefinitionRemoveManager, 1))
      (Demo.present w5) = false.
Proof.
  pose (run := Demo.run_plugin 1 Demo.w0).
  exists (fst (fst run)).
  exists ([mkManager DbRemoveManager 1 tt (Some true)] ++
          [mkManager MeltanoYmlRemoveManager 1 tt (Some true)]).
  split; [|split; reflexivity].
  refine (@manager_callback_fault_propagates _ _ _ _ Demo.construct_effect
            Demo.remove_effect tt
            noop (Demo.refuse_manager MeltanoYmlRemoveManager) 1 [] [3] 1
            [mkManager DbRemoveManager 1 tt (Some true)]
            [mkManager InstallationRemoveManager 1 tt (Some true);
             mkManager LockedDefinitionRemoveManager 1 tt (Some true)]
            (mkManager MeltanoYmlRemoveManager 1 tt (Some true))
            Demo.w0 Demo.w0 Demo.w0 (fst (fst run)) (fst (fst run))
            (fst (fst run)) [] (snd (fst run))
            [ManagerStatus (mkManager DbRemoveManager 1 tt (Some true))]
            (0%Z, 0%Z) false (MeltanoYmlRemoveManager, 1)
            _ _ _ _ _ 3 (le_n 3)).
  - reflexivity.
  - reflexivity.
  - vm_compute. reflexivity.
  - vm_compute. reflexivity.
  - vm_compute. reflexivity.
Defined.

Lemma remove_plugins_app_witness :
  let run1 := Demo.run_default [1] Demo.w0 in
  let run2 := Demo.run_default [2; 3] (Demo.world_of run1 Demo.w0) in
  Demo.outcome run1 = Some (Return (1%Z, 1%Z)) /\
  Demo.outcome run2 = Some (Return (1%Z, 2%Z)) /\
  Demo.run_default ([1] ++ [2; 3]) Demo.w0 =
    Some (Demo.world_of run2 Demo.w0,
          Demo.trace_of run1 ++ Demo.trace_of run2,
          Return ((1 + 1)%Z, (1 + 2)%Z)).
Proof.
  intros run1 run2.
  split; [vm_compute; reflexivity|]. split; [vm_compute; reflexivity|].
  refine (@remove_plugins_app _ _ _ _ Demo.construct_effect
            Demo.remove_effect tt noop noop 2 3 [1] [2; 3] Demo.w0
            (Demo.world_of run1 Demo.w0) (Demo.world_of run2 Demo.w0)
            (Demo.trace_of run1) (Demo.trace_of run2) 1%Z 1%Z 1%Z 2%Z
            _ _ 4 (le_n 4)).
  - vm_compute. reflexivity.
  - vm_compute. reflexivity.
Defined.

Lemma all_removed_iff_counts_equal_witness :
  let run := Demo.run_default [1; 3] Demo.w0 in
  Demo.outcome run = Some (Return (2%Z, 2%Z)) /\
  Forall (fun ms => all_removed ms = true) (reports (Demo.trace_of run)).
Proof.
  intros run. split; [vm_compute; reflexivity|].
  assert (Hrun : run =
                 Some (Demo.world_of run Demo.w0, Demo.trace_of run,
                       Return (2%Z, 2%Z)))
    by (vm_compute; reflexivity).
  apply (@all_removed_iff_counts_equal _ _ _ _ Demo.construct_effect
           Demo.remove_effect tt noop noop 3 (Demo.tuple [1; 3]) Demo.w0
           _ _ 2%Z 2%Z Hrun).
  reflexivity.
Defined.


Lemma remove_plugins_single_default_witness :
  snd (Demo.run_plugin 2 Demo.w0) =
    Return [mkManager DbRemoveManager 2 tt (Some true);
            mkManager MeltanoYmlRemoveManager 2 tt (Some true);
            mkManager InstallationRemoveManager 2 tt (Some false);
            mkManager LockedDefinitionRemoveManager 2 tt (Some true)] /\
  Demo.outcome (Demo.run_default [2] Demo.w0) = Some (Return (0%Z, 1%Z)).
Proof.
  split; [reflexivity|].
  unfold Demo.run_default, Demo.run_plugins, Demo.tuple.
  cbn [length].
  rewrite (@remove_plugins_single_default _ _ _ _ Demo.construct_effect
             Demo.remove_effect tt 0 2 Demo.w0
             (fst (fst (Demo.run_plugin 2 Demo.w0)))
             (snd (fst (Demo.run_plugin 2 Demo.w0)))
             (snd (Demo.run_plugin 2 Demo.w0)));
    [reflexivity | vm_compute; reflexivity].
Defined.

Lemma callbacks_do_not_interfere_witness :
  let w := Demo.with_batch [1; 2; 3] in
  let run1 :=
    Demo.run_plugins (@Demo.tick _) (@Demo.tick _) 4 Demo.batch_list w in
  let run2 := Demo.run_plugins noop noop 5 Demo.batch_list w in
  Demo.outcome run1 = Some (Return (2%Z, 3%Z)) /\
  Demo.outcome run2 = Some (Return (2%Z, 3%Z)) /\
  Demo.trace_of run1 = Demo.trace_of run2 /\
  Demo.ticks (Demo.world_of run1 w) <> Demo.ticks (Demo.world_of run2 w).
Proof.
  intros w run1 run2.
  split; [vm_compute; reflexivity|]. split; [vm_compute; reflexivity|].
  split; [|vm_compute; discriminate].
  refine (proj1 (proj2
    (@callbacks_do_not_interfere _ _ _ _ _ Demo.construct_effect
       Demo.remove_effect tt Demo.view
       demo_construct_respects_view demo_remove_respects_view
       Demo.batch_list demo_batch_in_view
       (@Demo.tick _) noop (@Demo.tick _) noop _ _ _ _ 4 5
       w w (Demo.world_of run1 w) (Demo.world_of run2 w)
       (Demo.trace_of run1) (Demo.trace_of run2)
       (2%Z, 3%Z) (2%Z, 3%Z) eq_refl _ _))).
  - intros p w0 w1 H. inversion H. reflexivity.
  - intros p w0 w1 H. inversion H. reflexivity.
  - intros m w0 w1 H. inversion H. reflexivity.
  - intros m w0 w1 H. inversion H. reflexivity.
  - vm_compute. reflexivity.
  - vm_compute. reflexivity.
Defined.


